(** * Approval workflow of app.py: request, document and approver handlers

    A shallow embedding of the route handlers of [src/app.py] that own the
    request state machine ([create_request], [approve_request],
    [delete_request]), the department-approver registry
    ([create_department_approver], [delete_department_approver]) and the
    document engine ([approve_document]), followed by the handlers around
    them: [create_workflow_request], the permission check of [get_request]
    and the selection of [get_requests], [new_document], the approve button
    of [view_document], [archive_document] and the department distribution
    of the analytics dashboard.

    The relational store is a record of tables; a table is the list of its
    rows in insertion order, which is the order [.first()] observes.  A
    handler is a function from the store, the logged-in user and the
    request arguments to the store after the handler and the response.

    Of the constraints the model classes declare, the store enforces the
    two a modelled handler can violate: the unique constraint
    [unique_department_approver], by an insert, and the NOT NULL of
    [workflow_flow_display.request_id], when [db.session.delete] makes the
    mapper detach the flow rows of the request it deletes.  A failed commit
    leaves the store as it was.  Timestamps are left out.

    A text whose characters the code inspects (the posted message and
    title, which it strips, slices and measures) is a list of code points;
    the other strings are only compared, stored or concatenated. *)

From Stdlib Require Import ZArith List String Ascii Bool Lia DecimalString.
Import ListNotations.
Local Open Scope string_scope.
Local Open Scope Z_scope.

(** ** Python values *)

Module Py.

(** A [str] whose characters the code inspects ([strip], slicing, [len]) is
    the list of its code points; a [str] that is only compared, stored or
    concatenated stays a [string]. *)
Definition str : Type := list N.

(** The code points of a literal of the source (ASCII). *)
Definition text (s : string) : str := map N_of_ascii (list_ascii_of_string s).

(** White space as [str.strip] and [str.isspace] see it: tab to carriage
    return, the four separators 0x1c-0x1f, the space, and the Unicode white
    space U+0085, U+00A0, U+1680, U+2000-U+200A, U+2028, U+2029, U+202F,
    U+205F and U+3000. *)
Definition isspace (c : N) : bool :=
  (((9 <=? c) && (c <=? 13)) || ((28 <=? c) && (c <=? 32))
   || (c =? 133) || (c =? 160) || (c =? 5760)
   || ((8192 <=? c) && (c <=? 8202))
   || (c =? 8232) || (c =? 8233) || (c =? 8239) || (c =? 8287) || (c =? 12288))%N.

Fixpoint lstrip (s : str) : str :=
  match s with
  | [] => []
  | c :: t => if isspace c then lstrip t else s
  end.

(** [rstrip]: a trailing character goes when everything after it went. *)
Fixpoint rstrip (s : str) : str :=
  match s with
  | [] => []
  | c :: t =>
      match rstrip t with
      | [] => if isspace c then [] else [c]
      | t' => c :: t'
      end
  end.

(** [s.strip()] *)
Definition strip (s : str) : str := rstrip (lstrip s).

(** [not s] for a text. *)
Definition empty (s : str) : bool :=
  match s with [] => true | _ => false end.

(** [not s] for a string ([None], which [dict.get] gives for an absent
    key, is represented by the empty string: both are falsy). *)
Definition falsy (s : string) : bool :=
  match s with EmptyString => true | _ => false end.

(** [s[:n]] *)
Definition take (n : nat) (s : str) : str := firstn n s.

(** [len(s)] *)
Definition len (s : str) : nat := List.length s.

End Py.

(** ** Rows of the tables (the [db.Model] classes) *)

Record User := mkUser {
  user_id : Z;
  username : string;
  role : string;                       (* admin, approver, user *)
  user_department : option string
}.

Record DepartmentApprover := mkDepartmentApprover {
  da_id : Z;
  da_department : string;
  da_approver_id : Z;
  is_active : bool
}.

Record Request := mkRequest {
  request_id : Z;
  title : Py.str;
  message : Py.str;
  department : string;
  status : string;
  priority : string;
  submitter_id : Z;
  department_approver_id : option Z;
  admin_approver_id : option Z
}.

Record RequestApproval := mkRequestApproval {
  ra_id : Z;
  ra_request_id : Z;
  ra_approver_id : Z;
  approval_level : string;
  action : string;
  comments : string
}.

Record WorkflowFlowDisplay := mkWorkflowFlowDisplay {
  wfd_id : Z;
  wfd_request_id : Z;
  step_number : Z;
  step_name : string;
  wfd_user_id : Z;
  wfd_username : string;
  wfd_role : string;
  wfd_department : option string;
  wfd_status : string
}.

Record Document := mkDocument {
  document_id : Z;
  doc_title : string;
  doc_status : string;                 (* pending, approved, rejected, archived *)
  doc_submitter_id : Z
}.

Record WorkflowStep := mkWorkflowStep {
  ws_id : Z;
  ws_document_id : Z;
  step_order : Z;
  ws_approver_id : Z;
  ws_status : string;                  (* pending, approved, rejected *)
  ws_comments : string
}.

Record Approval := mkApproval {
  ap_id : Z;
  ap_document_id : Z;
  ap_approver_id : Z;
  ap_action : string;                  (* approve, reject, comment *)
  ap_comments : string
}.

(** The store: one list of rows per table. *)
Record Db := mkDb {
  users : list User;
  department_approvers : list DepartmentApprover;
  requests : list Request;
  request_approvals : list RequestApproval;
  workflow_flow_display : list WorkflowFlowDisplay;
  documents : list Document;
  workflow_steps : list WorkflowStep;
  approvals : list Approval
}.

(** ** Queries and updates of the persistence layer *)

Module Store.

(** [query.filter_by(...).first()] *)
Definition first {A} (p : A -> bool) (rows : list A) : option A := find p rows.

(** [query.filter_by(...).count()] *)
Definition count {A} (p : A -> bool) (rows : list A) : Z :=
  Z.of_nat (List.length (filter p rows)).

(** [query.filter_by(...).delete()] *)
Definition delete {A} (p : A -> bool) (rows : list A) : list A :=
  filter (fun r => negb (p r)) rows.

(** Attribute assignment on the object [.first()] or [.get()] returned:
    the first matching row is rewritten in place. *)
Fixpoint update_first {A} (p : A -> bool) (f : A -> A) (rows : list A) : list A :=
  match rows with
  | [] => []
  | r :: rest => if p r then f r :: rest else r :: update_first p f rest
  end.

(** The integer primary key the store gives a new row: one more than the
    largest key present. *)
Definition next_id {A} (key : A -> Z) (rows : list A) : Z :=
  1 + fold_right (fun r m => Z.max (key r) m) 0 rows.

Definition get_user (db : Db) (id : Z) : option User :=
  first (fun u => user_id u =? id) (users db).

Definition get_request (db : Db) (id : Z) : option Request :=
  first (fun r => request_id r =? id) (requests db).

Definition get_document (db : Db) (id : Z) : option Document :=
  first (fun d => document_id d =? id) (documents db).

Definition get_department_approver (db : Db) (id : Z) : option DepartmentApprover :=
  first (fun a => da_id a =? id) (department_approvers db).

(** [DepartmentApprover.query.filter_by(department=d, is_active=True).first()] *)
Definition active_approver (db : Db) (d : string) : option DepartmentApprover :=
  first (fun a => (da_department a =? d)%string && is_active a)
        (department_approvers db).

(** [User.query.filter_by(username='general_approver').first()] *)
Definition general_approver (db : Db) : option User :=
  first (fun u => (username u =? "general_approver")%string) (users db).

(** [User.query.filter_by(role='admin').first()] *)
Definition admin_approver (db : Db) : option User :=
  first (fun u => (role u =? "admin")%string) (users db).

(** [unique_department_approver]: the table refuses a row whose
    (department, approver_id) pair is already present, active or not. *)
Definition unique_department_approver (db : Db) (d : string) (a : Z) : bool :=
  negb (existsb (fun r => (da_department r =? d)%string && (da_approver_id r =? a))
                (department_approvers db)).

End Store.

(** ** Responses *)

(** Exceptions a handler can meet. *)
Inductive exn : Type :=
| NotFound                               (* raised by [get_or_404] *)
| IntegrityError (constraint : string)   (* raised by the store on commit *)
| AttributeError.                        (* attribute access on [None] *)

(** The payload of a [{"success": True, ...}] answer. *)
Inductive body : Type :=
| Created (new_request_id : Z) (msg : string) (approver_id : Z) (approver_name : string)
| Approved (msg : string) (new_status : string)
| ApproverCreated (msg : string) (new_approver_id : Z)
| Done (msg : string).

Inductive response : Type :=
| ok (b : body)                       (* jsonify({"success": True, ...}), 200 *)
| error (code : Z) (msg : string)     (* jsonify({"error": msg}), code *)
| failed (prefix : string) (e : exn)  (* except Exception as e:
                                         jsonify({"error": prefix + str(e)}), 500 *)
| flash (msg : string)                (* flash(msg); redirect(...) *)
| unhandled (e : exn).                (* exception outside any try: nothing is committed *)

(** ** Row and table setters *)

Definition set_status (s : string) (r : Request) : Request :=
  mkRequest (request_id r) (title r) (message r) (department r) s (priority r)
            (submitter_id r) (department_approver_id r) (admin_approver_id r).

Definition set_department_approver_id (a : Z) (r : Request) : Request :=
  mkRequest (request_id r) (title r) (message r) (department r) (status r) (priority r)
            (submitter_id r) (Some a) (admin_approver_id r).

Definition set_admin_approver_id (a : Z) (r : Request) : Request :=
  mkRequest (request_id r) (title r) (message r) (department r) (status r) (priority r)
            (submitter_id r) (department_approver_id r) (Some a).

Definition set_wfd_status (s : string) (f : WorkflowFlowDisplay) : WorkflowFlowDisplay :=
  mkWorkflowFlowDisplay (wfd_id f) (wfd_request_id f) (step_number f) (step_name f)
                        (wfd_user_id f) (wfd_username f) (wfd_role f) (wfd_department f) s.

Definition set_is_active (b : bool) (a : DepartmentApprover) : DepartmentApprover :=
  mkDepartmentApprover (da_id a) (da_department a) (da_approver_id a) b.

Definition close_step (s c : string) (w : WorkflowStep) : WorkflowStep :=
  mkWorkflowStep (ws_id w) (ws_document_id w) (step_order w) (ws_approver_id w) s c.

Definition set_doc_status (s : string) (d : Document) : Document :=
  mkDocument (document_id d) (doc_title d) s (doc_submitter_id d).

Definition with_department_approvers (db : Db) (t : list DepartmentApprover) : Db :=
  mkDb (users db) t (requests db) (request_approvals db) (workflow_flow_display db)
       (documents db) (workflow_steps db) (approvals db).

Definition with_requests (db : Db) (t : list Request) : Db :=
  mkDb (users db) (department_approvers db) t (request_approvals db)
       (workflow_flow_display db) (documents db) (workflow_steps db) (approvals db).

Definition with_request_approvals (db : Db) (t : list RequestApproval) : Db :=
  mkDb (users db) (department_approvers db) (requests db) t
       (workflow_flow_display db) (documents db) (workflow_steps db) (approvals db).

Definition with_workflow_flow_display (db : Db) (t : list WorkflowFlowDisplay) : Db :=
  mkDb (users db) (department_approvers db) (requests db) (request_approvals db) t
       (documents db) (workflow_steps db) (approvals db).

Definition with_documents (db : Db) (t : list Document) : Db :=
  mkDb (users db) (department_approvers db) (requests db) (request_approvals db)
       (workflow_flow_display db) t (workflow_steps db) (approvals db).

Definition with_workflow_steps (db : Db) (t : list WorkflowStep) : Db :=
  mkDb (users db) (department_approvers db) (requests db) (request_approvals db)
       (workflow_flow_display db) (documents db) t (approvals db).

Definition with_approvals (db : Db) (t : list Approval) : Db :=
  mkDb (users db) (department_approvers db) (requests db) (request_approvals db)
       (workflow_flow_display db) (documents db) (workflow_steps db) t.

(** [db.session.add(RequestApproval(...))] *)
Definition add_request_approval (db : Db) (rid approver : Z) (level act com : string) : Db :=
  with_request_approvals db
    (request_approvals db ++
     [mkRequestApproval (Store.next_id ra_id (request_approvals db)) rid approver level act com]).

(** [db.session.add(WorkflowFlowDisplay(...))] *)
Definition add_flow (db : Db) (rid step : Z) (name : string) (uid : Z)
    (uname urole : string) (dept : option string) (st : string) : Db :=
  with_workflow_flow_display db
    (workflow_flow_display db ++
     [mkWorkflowFlowDisplay (Store.next_id wfd_id (workflow_flow_display db))
                            rid step name uid uname urole dept st]).

(** ** The request workflow *)

Module Workflow.
Import Store.

(** [create_request] (POST /api/requests/create) *)
Definition create_request (db : Db) (current_user : User)
    (posted_message : Py.str) (department priority : string) : Db * response :=
  let message := Py.strip posted_message in
  if Py.empty message || Py.falsy department then
    (db, error 400 "Message and department are required")
  else
    match active_approver db department with
    | None => (db, error 404 ("No approver found for " ++ department ++ " department")%string)
    | Some department_approver =>
        let request_title :=
          (Py.text "Request: " ++ Py.take 50 message
             ++ (if (50 <? Py.len message)%nat then Py.text "..." else []))%list in
        let new_id := next_id request_id (requests db) in
        let new_request :=
          mkRequest new_id request_title message department "pending" priority
                    (user_id current_user)
                    (Some (da_approver_id department_approver)) None in
        let db := with_requests db (requests db ++ [new_request]) in
        (* the three approval steps *)
        let general := general_approver db in
        let db :=
          match general with
          | Some g => add_request_approval db new_id (user_id g) "general" "pending"
                        "Request submitted and routed to General Approver (Step 1)"
          | None => db
          end in
        let db :=
          add_request_approval db new_id (da_approver_id department_approver)
            "department" "pending"
            ("Request routed to " ++ department ++ " Department Approver (Step 2)")%string in
        let admin := admin_approver db in
        let db :=
          match admin with
          | Some a => add_request_approval db new_id (user_id a) "admin" "pending"
                        "Request routed to Admin Approver (Step 3)"
          | None => db
          end in
        (* the flow display records *)
        let db :=
          add_flow db new_id 0 "User (Submitter)" (user_id current_user)
                   (username current_user) "user" (user_department current_user)
                   "completed" in
        let db :=
          match general with
          | Some g => add_flow db new_id 1 "General Approver" (user_id g) (username g)
                        "general_approver" (Some "General") "pending"
          | None => db
          end in
        let db :=
          match get_user db (da_approver_id department_approver) with
          | Some u => add_flow db new_id 2 (department ++ " Department Approver")%string
                        (user_id u) (username u) "department_approver"
                        (Some department) "pending"
          | None => db
          end in
        let db :=
          match admin with
          | Some a => add_flow db new_id 3 "Admin Approver" (user_id a) (username a)
                        "admin" (Some "Admin") "pending"
          | None => db
          end in
        match get_user db (da_approver_id department_approver) with
        | Some u =>
            (db, ok (Created new_id "Request created and routed successfully"
                             (da_approver_id department_approver) (username u)))
        | None => (db, failed "Request creation failed: " AttributeError)
        end
    end.

(** The authorisation check of [approve_request]: [None] is
    [can_approve = False]; [Some level] is [can_approve = True] with
    [approval_level = level] (the two are always assigned together). *)
Definition approval_level_for (db : Db) (current_user : User) (request_obj : Request)
    : option string :=
  if (role current_user =? "admin")%string then Some "admin"
  else if (username current_user =? "general_approver")%string then
    if (status request_obj =? "pending")%string then Some "general" else None
  else
    match first (fun a => (da_approver_id a =? user_id current_user)
                          && (da_department a =? department request_obj)%string
                          && is_active a)
                (department_approvers db) with
    | Some _ =>
        if (status request_obj =? "general_approved")%string then Some "department"
        else None
    | None => None
    end.

(** The flow display rows [approve_request] looks up. *)
Definition general_flow (rid : Z) (f : WorkflowFlowDisplay) : bool :=
  (wfd_request_id f =? rid) && (step_number f =? 1)
  && (step_name f =? "General Approver")%string.

Definition dept_flow (rid : Z) (f : WorkflowFlowDisplay) : bool :=
  (wfd_request_id f =? rid) && (step_number f =? 2).

Definition admin_flow (rid : Z) (f : WorkflowFlowDisplay) : bool :=
  (wfd_request_id f =? rid) && (step_number f =? 3)
  && (step_name f =? "Admin Approver")%string.

(** [flow.status = s] on the first row the query finds, if any. *)
Definition mark_flow (p : WorkflowFlowDisplay -> bool) (s : string) (db : Db) : Db :=
  with_workflow_flow_display db
    (update_first p (set_wfd_status s) (workflow_flow_display db)).

(** Assignments to [request_obj], the row [Request.query.get] returned. *)
Definition update_request (rid : Z) (f : Request -> Request) (db : Db) : Db :=
  with_requests db (update_first (fun r => request_id r =? rid) f (requests db)).

(** What [approve_request] does to [request_obj] for an action at a level. *)
Definition apply_action (current_user : User) (level act : string) (r : Request)
    : Request :=
  if (act =? "approve")%string then
    if (level =? "general")%string then set_status "general_approved" r
    else if (level =? "department")%string then
      set_department_approver_id (user_id current_user)
        (set_status "department_approved" r)
    else if (level =? "admin")%string then
      set_admin_approver_id (user_id current_user) (set_status "admin_approved" r)
    else r
  else if (act =? "reject")%string then set_status "rejected" r
  else r.

(** What it does to the flow display. *)
Definition apply_flow (rid : Z) (level act : string) (db : Db) : Db :=
  let mark s :=
    if (level =? "general")%string then mark_flow (general_flow rid) s db
    else if (level =? "department")%string then mark_flow (dept_flow rid) s db
    else if (level =? "admin")%string then mark_flow (admin_flow rid) s db
    else db in
  if (act =? "approve")%string then mark "approved"
  else if (act =? "reject")%string then mark "rejected"
  else db.

(** [approve_request] (POST /api/requests/<request_id>/approve) *)
Definition approve_request (db : Db) (current_user : User) (rid : Z)
    (act com : string) : Db * response :=
  match get_request db rid with
  | None => (db, failed "Approval failed: " NotFound)
  | Some request_obj =>
      match approval_level_for db current_user request_obj with
      | None => (db, error 403 "You are not authorized to approve this request")
      | Some level =>
          let db := add_request_approval db rid (user_id current_user) level act com in
          let db := update_request rid (apply_action current_user level act) db in
          let db := apply_flow rid level act db in
          (db, ok (Approved ("Request " ++ act ++ "d successfully")%string
                            (status (apply_action current_user level act request_obj))))
      end
  end.

(** The rows of [request_obj.workflow_flow], the backref of
    [WorkflowFlowDisplay.request]. *)
Definition workflow_flow (db : Db) (rid : Z) : list WorkflowFlowDisplay :=
  filter (fun f => wfd_request_id f =? rid) (workflow_flow_display db).

(** [delete_request] (DELETE /api/requests/<request_id>).  The approvals are
    deleted by the query.  [db.session.delete(request_obj)] then makes the
    mapper detach what the relationships of [Request] still hold: neither
    [approvals] nor [workflow_flow] has a delete cascade, so each remaining
    child gets [request_id = None].  No approval is left by then; for a flow
    row the column is NOT NULL, the commit raises, nothing of the
    transaction is kept and the handler answers 500. *)
Definition delete_request (db : Db) (current_user : User) (rid : Z) : Db * response :=
  if negb (role current_user =? "admin")%string then (db, error 403 "Access denied")
  else
    match get_request db rid with
    | None => (db, failed "Failed to delete request: " NotFound)
    | Some _ =>
        let db1 :=
          with_request_approvals db
            (delete (fun a => ra_request_id a =? rid) (request_approvals db)) in
        match workflow_flow db1 rid with
        | _ :: _ =>
            (db, failed "Failed to delete request: "
                        (IntegrityError "workflow_flow_display.request_id NOT NULL"))
        | [] =>
            let db2 :=
              with_requests db1 (delete (fun r => request_id r =? rid) (requests db1)) in
            (db2, ok (Done "Request deleted successfully"))
        end
    end.

End Workflow.

(** ** The department-approver registry *)

Module Approvers.
Import Store.

(** [create_department_approver] (POST /api/department-approvers).  A posted
    [approver_id] of 0 is falsy, like an absent one. *)
Definition create_department_approver (db : Db) (current_user : User)
    (department : string) (approver_id : Z) : Db * response :=
  if negb (role current_user =? "admin")%string then (db, error 403 "Access denied")
  else if Py.falsy department || (approver_id =? 0) then
    (db, error 400 "Department and approver_id are required")
  else
    match get_user db approver_id with
    | None => (db, error 404 "User not found")
    | Some _ =>
        match active_approver db department with
        | Some _ =>
            (db, error 400 ("Department " ++ department ++ " already has an approver")%string)
        | None =>
            let new_id := next_id da_id (department_approvers db) in
            let new_approver := mkDepartmentApprover new_id department approver_id true in
            if unique_department_approver db department approver_id then
              (with_department_approvers db (department_approvers db ++ [new_approver]),
               ok (ApproverCreated
                     ("Department approver created successfully for " ++ department)%string
                     new_id))
            else
              (db, failed "Failed to create approver: "
                          (IntegrityError "unique_department_approver"))
        end
    end.

(** [delete_department_approver] (DELETE /api/department-approvers/<approver_id>):
    the path parameter is the key of the mapping row. *)
Definition delete_department_approver (db : Db) (current_user : User)
    (approver_id : Z) : Db * response :=
  if negb (role current_user =? "admin")%string then (db, error 403 "Access denied")
  else
    match get_department_approver db approver_id with
    | None => (db, failed "Failed to delete approver: " NotFound)
    | Some _ =>
        (with_department_approvers db
           (update_first (fun a => da_id a =? approver_id) (set_is_active false)
                         (department_approvers db)),
         ok (Done "Department approver deactivated successfully"))
    end.

End Approvers.

(** ** The document engine *)

Module Documents.
Import Store.

(** The pending step of a document assigned to a user. *)
Definition pending_step_of (doc_id uid : Z) (w : WorkflowStep) : bool :=
  (ws_document_id w =? doc_id) && (ws_approver_id w =? uid)
  && (ws_status w =? "pending")%string.

(** [WorkflowStep.query.filter_by(document_id=doc_id, status=s).count()] *)
Definition count_steps (db : Db) (doc_id : Z) (s : string) : Z :=
  count (fun w => (ws_document_id w =? doc_id) && (ws_status w =? s)%string)
        (workflow_steps db).

(** [approve_document] (POST /document/<doc_id>/approve); [act] and [com]
    are the posted form fields [action] and [comments]. *)
Definition approve_document (db : Db) (current_user : User) (doc_id : Z)
    (act com : string) : Db * response :=
  if negb ((role current_user =? "admin")%string || (role current_user =? "approver")%string)
  then (db, flash "You do not have permission to approve documents")
  else
    match first (pending_step_of doc_id (user_id current_user)) (workflow_steps db) with
    | None => (db, flash "You are not authorized to approve this document")
    | Some _ =>
        (* approval record *)
        let db1 :=
          with_approvals db
            (approvals db ++
             [mkApproval (next_id ap_id (approvals db)) doc_id (user_id current_user)
                         act com]) in
        (* workflow_step.status = action *)
        let db2 :=
          with_workflow_steps db1
            (update_first (pending_step_of doc_id (user_id current_user))
                          (close_step act com) (workflow_steps db1)) in
        (* the counts are taken after the pending changes are flushed *)
        let pending_steps := count_steps db2 doc_id "pending" in
        if pending_steps =? 0 then
          let rejected_steps := count_steps db2 doc_id "rejected" in
          let new_status := if 0 <? rejected_steps then "rejected" else "approved" in
          match get_document db2 doc_id with
          | None => (db, unhandled AttributeError)
          | Some _ =>
              (with_documents db2
                 (update_first (fun d => document_id d =? doc_id)
                               (set_doc_status new_status) (documents db2)),
               flash ("Document " ++ act ++ "ed successfully!")%string)
          end
        else (db2, flash ("Document " ++ act ++ "ed successfully!")%string)
    end.

End Documents.

(** ** The state machine the specification describes *)

Module Machine.
Import Store Workflow.

(** Terminal states: [admin_approved] and [rejected]. *)
Definition is_terminal (s : string) : bool :=
  (s =? "admin_approved")%string || (s =? "rejected")%string.

(** Position of a status on the chain
    pending -> general_approved -> department_approved -> admin_approved. *)
Definition stage_rank (s : string) : option nat :=
  if (s =? "pending")%string then Some 0%nat
  else if (s =? "general_approved")%string then Some 1%nat
  else if (s =? "department_approved")%string then Some 2%nat
  else if (s =? "admin_approved")%string then Some 3%nat
  else None.

(** The three states a request can still leave. *)
Definition open_stage (s : string) : bool :=
  match stage_rank s with
  | Some i => (i <? 3)%nat
  | None => false
  end.

(** [forward s s']: the status stays, moves up the chain, or jumps to
    [rejected] from an open state. *)
Definition forward (s s' : string) : bool :=
  (s =? s')%string
  || match stage_rank s, stage_rank s' with
     | Some i, Some j => (i <? j)%nat
     | _, _ => false
     end
  || (open_stage s && (s' =? "rejected")%string).

Definition request_status (db : Db) (rid : Z) : option string :=
  option_map status (get_request db rid).

(** The user holds an active mapping for the department. *)
Definition is_department_approver (db : Db) (u : User) (d : string) : bool :=
  existsb (fun a => (da_approver_id a =? user_id u)
                    && (da_department a =? d)%string && is_active a)
          (department_approvers db).

(** The expected actor of the current stage, in the specification's words:
    an admin at any stage; the well-known general approver while the
    request is pending; the active department approver of the request's
    department while it is general_approved. *)
Definition may_act (db : Db) (u : User) (r : Request) : bool :=
  (role u =? "admin")%string
  || ((status r =? "pending")%string && (username u =? "general_approver")%string)
  || ((status r =? "general_approved")%string
      && is_department_approver db u (department r)).

(** Number of approval rows of a request at a level. *)
Definition count_level (db : Db) (rid : Z) (level : string) : Z :=
  count (fun a => (ra_request_id a =? rid) && (approval_level a =? level)%string)
        (request_approvals db).

(** The operations that keep a request in the table. *)
Inductive op : Type :=
| OpCreateRequest (u : User) (posted_message : Py.str) (department priority : string)
| OpApproveRequest (u : User) (rid : Z) (act com : string)
| OpCreateApprover (u : User) (department : string) (approver_id : Z)
| OpDeleteApprover (u : User) (approver_id : Z)
| OpApproveDocument (u : User) (doc_id : Z) (act com : string).

Definition step (db : Db) (o : op) : Db :=
  match o with
  | OpCreateRequest u m d p => fst (create_request db u m d p)
  | OpApproveRequest u rid act com => fst (approve_request db u rid act com)
  | OpCreateApprover u d a => fst (Approvers.create_department_approver db u d a)
  | OpDeleteApprover u a => fst (Approvers.delete_department_approver db u a)
  | OpApproveDocument u doc act com => fst (Documents.approve_document db u doc act com)
  end.

Definition run (db : Db) (ops : list op) : Db := fold_left step ops db.

(** An admin's approve_request call is aimed at a request in an open state. *)
Definition admin_on_open (db : Db) (o : op) : bool :=
  match o with
  | OpApproveRequest u rid _ _ =>
      negb (role u =? "admin")%string
      || match get_request db rid with
         | Some r => open_stage (status r)
         | None => true
         end
  | _ => true
  end.

(** Every admin call of the sequence meets an open request, each call
    judged in the store it runs in. *)
Fixpoint admins_on_open (db : Db) (ops : list op) : bool :=
  match ops with
  | [] => true
  | o :: rest => admin_on_open db o && admins_on_open (step db o) rest
  end.

(** The level and action of an approval row. *)
Definition level_action (a : RequestApproval) : string * string :=
  (approval_level a, action a).

(** The pending rows [create_request] owes a new request: one per stage
    whose approver account resolves. *)
Definition stages_created (db : Db) : list (string * string) :=
  (match general_approver db with Some _ => [("general", "pending")] | None => [] end)
  ++ [("department", "pending")]
  ++ (match admin_approver db with Some _ => [("admin", "pending")] | None => [] end).

End Machine.

(** ** Sample stores *)

Module Sample.
Import Store Workflow Approvers Documents.

Definition admin : User := mkUser 1 "admin" "admin" (Some "IT").
Definition general : User := mkUser 2 "general_approver" "approver" (Some "General").
Definition it_approver : User := mkUser 3 "it_approver" "approver" (Some "IT").
Definition hr_approver : User := mkUser 4 "hr_approver" "approver" (Some "HR").
Definition user1 : User := mkUser 5 "user1" "user" (Some "Sales").

(** The message of the sample request. *)
Definition laptop : Py.str := Py.text "Need a new laptop".

(** Users, and [it_approver] as the active approver of IT. *)
Definition seed : Db :=
  mkDb [admin; general; it_approver; hr_approver; user1]
       [mkDepartmentApprover 1 "IT" 3 true] [] [] [] [] [] [].

(** The same store without the general_approver account. *)
Definition seed_no_general : Db :=
  mkDb [admin; it_approver; hr_approver; user1]
       [mkDepartmentApprover 1 "IT" 3 true] [] [] [] [] [] [].

(** user1 submits request 1 for IT. *)
Definition db_created : Db :=
  fst (create_request seed user1 laptop "IT" "normal").

(** The general approver approves it. *)
Definition db_general : Db :=
  fst (approve_request db_created general 1 "approve" "fine").

(** Request 1 as [db_general] holds it. *)
Definition request1_general : Request :=
  mkRequest 1 (Py.text "Request: Need a new laptop") laptop "IT"
            "general_approved" "normal" 5 (Some 3) None.

(** The general approver rejects it instead. *)
Definition db_rejected : Db :=
  fst (approve_request db_created general 1 "reject" "no budget").

(** An admin approves the rejected request. *)
Definition db_reopened : Db :=
  fst (approve_request db_rejected admin 1 "approve" "override").

(** The IT mapping deactivated. *)
Definition db_it_vacant : Db :=
  fst (delete_department_approver seed admin 1).

(** A document whose single step waits for [it_approver]. *)
Definition db_document : Db :=
  mkDb [admin; general; it_approver; hr_approver; user1] [] [] [] []
       [mkDocument 1 "Travel policy" "pending" 5]
       [mkWorkflowStep 1 1 1 3 "pending" EmptyString] [].

End Sample.

(** ** Custom workflows *)

Module Custom.
Import Store.

(** One posted workflow step: [{"department": ..., "stepNumber": ...}]. *)
Record StepData := mkStepData {
  sd_department : string;
  stepNumber : Z
}.

(** The payload of the success answer of [create_workflow_request]. *)
Record WorkflowCreated := mkWorkflowCreated {
  wc_request_id : Z;
  wc_message : string;
  wc_workflow_steps : nat;             (* len(workflow_steps) *)
  wc_actual_department : string;
  wc_approver_id : Z;
  wc_approver_name : string
}.

(** [str(n)] of an integer. *)
Definition str_of_Z (n : Z) : string := NilZero.string_of_int (Z.to_int n).

(** [department in ['General Approver', 'Admin']] *)
Definition is_generic (d : string) : bool :=
  (d =? "General Approver")%string || (d =? "Admin")%string.

(** The loop that finds the department needing approval: the department of
    the first step that is neither of the two generic ones. *)
Definition actual_department_of (steps : list StepData) : option string :=
  option_map sd_department (find (fun s => negb (is_generic (sd_department s))) steps).

(** The approval record of one step, when its approver resolves: the key
    written to [approver_id] and the level.  A department step resolves to
    a DepartmentApprover row; that row has an [id] attribute, so
    [step_approver.id if hasattr(step_approver, 'id') else ...] takes the
    key of the mapping row. *)
Definition step_approval (db : Db) (s : StepData) : option (Z * string) :=
  if (sd_department s =? "General Approver")%string then
    option_map (fun g => (user_id g, "general")) (general_approver db)
  else if (sd_department s =? "Admin")%string then
    option_map (fun a => (user_id a, "admin")) (admin_approver db)
  else
    option_map (fun m => (da_id m, "department")) (active_approver db (sd_department s)).

(** First loop: one pending RequestApproval per step whose approver resolves. *)
Fixpoint add_step_approvals (db : Db) (rid : Z) (steps : list StepData) : Db :=
  match steps with
  | [] => db
  | s :: rest =>
      let db :=
        match step_approval db s with
        | Some (approver, level) =>
            add_request_approval db rid approver level "pending"
              ("Request submitted and routed to " ++ sd_department s
                 ++ " (Step " ++ str_of_Z (stepNumber s) ++ ")")%string
        | None => db
        end in
      add_step_approvals db rid rest
  end.

(** Second loop: one flow display record per step whose user resolves. *)
Fixpoint add_step_flows (db : Db) (rid : Z) (steps : list StepData) : Db :=
  match steps with
  | [] => db
  | s :: rest =>
      let department := sd_department s in
      let db :=
        if (department =? "General Approver")%string then
          match general_approver db with
          | Some g => add_flow db rid (stepNumber s) department (user_id g) (username g)
                        "general_approver" (Some "General") "pending"
          | None => db
          end
        else if (department =? "Admin")%string then
          match admin_approver db with
          | Some a => add_flow db rid (stepNumber s) department (user_id a) (username a)
                        "admin" (Some "Admin") "pending"
          | None => db
          end
        else
          match active_approver db department with
          | Some m =>
              match get_user db (da_approver_id m) with
              | Some u => add_flow db rid (stepNumber s)
                            (department ++ " Department Approver")%string
                            (user_id u) (username u) "department_approver"
                            (Some department) "pending"
              | None => db
              end
          | None => db
          end in
      add_step_flows db rid rest
  end.

(** [create_workflow_request] (POST /api/requests/create-workflow); every
    posted step carries both of its keys. *)
Definition create_workflow_request (db : Db) (current_user : User)
    (posted_title posted_message : Py.str) (priority : string)
    (workflow_steps : list StepData)
    : Db * (WorkflowCreated + response) :=
  let title := Py.strip posted_title in
  let message := Py.strip posted_message in
  if Py.empty title || Py.empty message then
    (db, inr (error 400 "Title and message are required"))
  else
    match workflow_steps with
    | [] => (db, inr (error 400 "At least one workflow step is required"))
    | _ :: _ =>
        match actual_department_of workflow_steps with
        | None => (db, inr (error 400 "No department specified in workflow steps"))
        | Some actual_department =>
            if Py.falsy actual_department then
              (db, inr (error 400 "No department specified in workflow steps"))
            else
              match active_approver db actual_department with
              | None =>
                  (db, inr (error 404 ("No approver found for " ++ actual_department
                                         ++ " department")%string))
              | Some department_approver =>
                  let new_id := next_id request_id (requests db) in
                  let new_request :=
                    mkRequest new_id title message actual_department "pending" priority
                              (user_id current_user)
                              (Some (da_approver_id department_approver)) None in
                  let db := with_requests db (requests db ++ [new_request]) in
                  let db := add_step_approvals db new_id workflow_steps in
                  let db :=
                    add_flow db new_id 0 "User (Submitter)" (user_id current_user)
                             (username current_user) "user"
                             (user_department current_user) "completed" in
                  let db := add_step_flows db new_id workflow_steps in
                  match get_user db (da_approver_id department_approver) with
                  | Some u =>
                      (db, inl (mkWorkflowCreated new_id "Workflow request created successfully"
                                  (List.length workflow_steps) actual_department
                                  (da_approver_id department_approver) (username u)))
                  | None =>
                      (db, inr (failed "Workflow request creation failed: " AttributeError))
                  end
              end
        end
    end.

End Custom.

(** ** Reading requests *)

Module Views.
Import Store.

(** The permission check of [get_request] (GET /api/requests/<request_id>):
    the row the handler goes on to render, or the refusal. *)
Definition get_request_check (db : Db) (current_user : User) (rid : Z)
    : response + Request :=
  match Store.get_request db rid with
  | None => inl (failed "Failed to fetch request: " NotFound)
  | Some request_obj =>
      if negb (role current_user =? "admin")%string
         && negb (submitter_id request_obj =? user_id current_user) then
        if (username current_user =? "general_approver")%string then inr request_obj
        else
          match first (fun a => (da_approver_id a =? user_id current_user)
                                && (da_department a =? department request_obj)%string
                                && is_active a)
                      (department_approvers db) with
          | Some _ => inr request_obj
          | None => inl (error 403 "Access denied")
          end
      else inr request_obj
  end.

(** The rows [get_requests] (GET /api/requests) selects for the logged-in
    user, before they are ordered by creation time and rendered. *)
Definition get_requests_rows (db : Db) (current_user : User) : list Request :=
  if (role current_user =? "admin")%string then requests db
  else if (role current_user =? "approver")%string then
    if (username current_user =? "general_approver")%string then
      filter (fun r => (status r =? "pending")%string) (requests db)
    else
      match first (fun a => (da_approver_id a =? user_id current_user) && is_active a)
                  (department_approvers db) with
      | Some department_approver =>
          filter (fun r => (department r =? da_department department_approver)%string
                           || match department_approver_id r with
                              | Some a => a =? user_id current_user
                              | None => false
                              end)
                 (requests db)
      | None => []
      end
  else filter (fun r => submitter_id r =? user_id current_user) (requests db).

End Views.

(** ** Submitting, viewing and archiving documents *)

Module Library.
Import Store Documents.

(** [db.session.add(WorkflowStep(document_id, step_order, approver_id))]: the
    status takes the column default, the comments are empty. *)
Definition add_workflow_step (db : Db) (doc_id order approver : Z) : Db :=
  with_workflow_steps db
    (workflow_steps db ++
     [mkWorkflowStep (next_id ws_id (workflow_steps db)) doc_id order approver
                     "pending" EmptyString]).

(** [for i, approver in enumerate(approvers)]: step [i + 1] for each. *)
Fixpoint add_approver_steps (db : Db) (doc_id i : Z) (approvers : list User) : Db :=
  match approvers with
  | [] => db
  | approver :: rest =>
      add_approver_steps (add_workflow_step db doc_id (i + 1) (user_id approver))
                         doc_id (i + 1) rest
  end.

(** [User.query.filter_by(role='approver').limit(2).all()], the store
    answering in insertion order. *)
Definition two_approvers (db : Db) : list User :=
  firstn 2 (filter (fun u => (role u =? "approver")%string) (users db)).

(** [new_document] (POST /document/new), without the file upload. *)
Definition new_document (db : Db) (current_user : User) (title : string)
    : Db * response :=
  let doc_id := next_id document_id (documents db) in
  let document := mkDocument doc_id title "pending" (user_id current_user) in
  let db := with_documents db (documents db ++ [document]) in
  let approvers := two_approvers db in
  let admin := admin_approver db in
  let db := add_approver_steps db doc_id 0 approvers in
  let db :=
    match admin with
    | Some a => add_workflow_step db doc_id 3 (user_id a)
    | None => db
    end in
  (db, flash "Document submitted successfully!").

(** [can_approve] as [view_document] (GET /document/<doc_id>) computes it;
    the order of the steps does not enter the result. *)
Definition can_approve (db : Db) (current_user : User) (doc_id : Z) : bool :=
  if (role current_user =? "admin")%string || (role current_user =? "approver")%string
  then
    existsb (fun step => (ws_approver_id step =? user_id current_user)
                         && (ws_status step =? "pending")%string)
            (filter (fun step => ws_document_id step =? doc_id) (workflow_steps db))
  else false.

(** [archive_document] (POST /document/<doc_id>/archive) *)
Definition archive_document (db : Db) (current_user : User) (doc_id : Z)
    : Db * response :=
  if negb (role current_user =? "admin")%string then
    (db, flash "Only administrators can archive documents")
  else
    match get_document db doc_id with
    | None => (db, unhandled NotFound)
    | Some _ =>
        (with_documents db
           (update_first (fun d => document_id d =? doc_id) (set_doc_status "archived")
                         (documents db)),
         flash "Document archived successfully!")
    end.

End Library.

(** ** Analytics *)

Module Analytics.

(** [Counter()[k] += 1]: a counter keeps its keys in order of first use. *)
Fixpoint counter_incr (k : string) (c : list (string * Z)) : list (string * Z) :=
  match c with
  | [] => [(k, 1)]
  | (k', n) :: rest =>
      if (k =? k')%string then (k', n + 1) :: rest else (k', n) :: counter_incr k rest
  end.

(** The counting loop of [calculate_department_distribution]. *)
Definition dept_counts (requests : list Request) : list (string * Z) :=
  fold_left (fun c req => if Py.falsy (department req) then c
                          else counter_incr (department req) c)
            requests [].

(** [calculate_department_distribution]: the pair of [labels] and [values]. *)
Definition calculate_department_distribution (requests : list Request)
    : list string * list Z :=
  (map fst (dept_counts requests), map snd (dept_counts requests)).

End Analytics.

(** ** More sample stores *)

Module Scenario.
Import Store Workflow Approvers Documents Custom Library Sample.

(** A four-step workflow: the general approver, two departments, the admin. *)
Definition steps_it : list StepData :=
  [mkStepData "General Approver" 1; mkStepData "IT" 2; mkStepData "Legal" 3;
   mkStepData "Admin" 4].

(** Only the two generic steps. *)
Definition steps_generic : list StepData :=
  [mkStepData "General Approver" 1; mkStepData "Admin" 2].

(** IT is mapped by row 7 to user 3. *)
Definition seed_row7 : Db :=
  mkDb [admin; general; it_approver; hr_approver; user1]
       [mkDepartmentApprover 7 "IT" 3 true] [] [] [] [] [] [].

(** The document [new_document] files in [seed]. *)
Definition db_filed : Db := fst (new_document seed user1 "Travel policy").

End Scenario.

(** ** Invariants of the approver registry *)

Module Registry.
Import Store Workflow Machine.

(** Number of active mappings of a department. *)
Definition active_count (db : Db) (d : string) : Z :=
  count (fun a => (da_department a =? d)%string && is_active a) (department_approvers db).

(** At most one active approver per department. *)
Definition one_active_per_department (db : Db) : Prop :=
  forall d, active_count db d <= 1.

(** What a mapping row records apart from its flag. *)
Definition mapping_of (a : DepartmentApprover) : Z * string * Z :=
  (da_id a, da_department a, da_approver_id a).

(** Every operation, [delete_request] included. *)
Inductive call : Type :=
| Kept (o : op)
| DeleteRequest (u : User) (rid : Z)
| CreateWorkflow (u : User) (title message : Py.str) (priority : string)
                 (steps : list Custom.StepData)
| NewDocument (u : User) (title : string)
| ArchiveDocument (u : User) (doc_id : Z).

Definition perform (db : Db) (c : call) : Db :=
  match c with
  | Kept o => step db o
  | DeleteRequest u rid => fst (delete_request db u rid)
  | CreateWorkflow u t m p steps => fst (Custom.create_workflow_request db u t m p steps)
  | NewDocument u t => fst (Library.new_document db u t)
  | ArchiveDocument u doc => fst (Library.archive_document db u doc)
  end.

Definition perform_all (db : Db) (cs : list call) : Db := fold_left perform cs db.

(** The call is not a [delete_request] of request [rid]. *)
Definition keeps (rid : Z) (c : call) : bool :=
  match c with
  | DeleteRequest _ rid' => negb (rid' =? rid)
  | _ => true
  end.

(** The stage of [level] lies behind the status: the request is no longer
    pending, and for a level other than general it is no longer
    general_approved either. *)
Definition passed (level s : string) : bool :=
  negb (s =? "pending")%string
  && ((level =? "general")%string || negb (s =? "general_approved")%string).

End Registry.

(** ** Proof automation for string tests *)

(** Decide every string comparison in sight and keep the equations. *)
Ltac str_case :=
  match goal with
  | H : context [String.eqb ?a ?b] |- _ =>
      let E := fresh "E" in
      destruct (String.eqb a b) eqn:E;
      [apply String.eqb_eq in E | apply String.eqb_neq in E]
  | |- context [String.eqb ?a ?b] =>
      let E := fresh "E" in
      destruct (String.eqb a b) eqn:E;
      [apply String.eqb_eq in E | apply String.eqb_neq in E]
  end.

Ltac str_cases := repeat (str_case; try subst; simpl in *; try congruence).

(** * Properties *)

Import Store Workflow Approvers Documents Machine Sample.
Import Custom Views Library Analytics Scenario Registry.

(** ** Facts about the store primitives *)

Section StoreFacts.
Context {A : Type}.
Variables (p q : A -> bool) (f : A -> A).

Lemma first_app (l l' : list A) :
  first p (l ++ l') =
  match first p l with Some x => Some x | None => first p l' end.
Proof.
  unfold first. induction l as [|x l IH]; simpl; [reflexivity|].
  destruct (p x); [reflexivity | exact IH].
Qed.

(** The row an update rewrites is the row the same query finds. *)
Lemma first_update_first (l : list A) :
  (forall x, p x = true -> p (f x) = true) ->
  first p (update_first p f l) = option_map f (first p l).
Proof.
  intros Hp. unfold first. induction l as [|x l IH]; simpl; [reflexivity|].
  destruct (p x) eqn:E; simpl.
  - rewrite (Hp x E). reflexivity.
  - rewrite E. exact IH.
Qed.

(** A query that never selects the rewritten row, before or after the
    rewrite, does not see the update. *)
Lemma first_update_other (l : list A) :
  (forall x, p x = true -> q x = false) ->
  (forall x, p x = true -> q (f x) = false) ->
  first q (update_first p f l) = first q l.
Proof.
  intros Hpq Hq. unfold first. induction l as [|x l IH]; simpl; [reflexivity|].
  destruct (p x) eqn:E; simpl.
  - rewrite (Hq x E), (Hpq x E). reflexivity.
  - destruct (q x); [reflexivity | exact IH].
Qed.

Lemma filter_update_first (l : list A) :
  (forall x, p x = true -> q x = false) ->
  (forall x, p x = true -> q (f x) = false) ->
  filter q (update_first p f l) = filter q l.
Proof.
  intros Hpq Hq. induction l as [|x l IH]; simpl; [reflexivity|].
  destruct (p x) eqn:E; simpl.
  - rewrite (Hq x E), (Hpq x E). reflexivity.
  - rewrite IH. reflexivity.
Qed.

(** Rewriting a counted row into one that is not counted lowers the
    count by one. *)
Lemma count_update_first (l : list A) :
  (forall x, p x = true -> q x = true) ->
  (forall x, p x = true -> q (f x) = false) ->
  first p l <> None ->
  count q (update_first p f l) = count q l - 1.
Proof.
  intros Hpq Hq. unfold count, first.
  induction l as [|x l IH]; simpl; [congruence|].
  destruct (p x) eqn:E; simpl.
  - intros _. rewrite (Hq x E), (Hpq x E). simpl List.length. lia.
  - intros H. specialize (IH H). destruct (q x); simpl List.length; lia.
Qed.

Lemma first_delete_same (l : list A) : first p (delete p l) = None.
Proof.
  unfold first, delete. induction l as [|x l IH]; simpl; [reflexivity|].
  destruct (p x) eqn:E; simpl; [exact IH|]. rewrite E. exact IH.
Qed.

Lemma first_some_in (l : list A) (x : A) :
  first p l = Some x -> In x l /\ p x = true.
Proof. unfold first. apply find_some. Qed.

End StoreFacts.

(** ** Statuses and string tests *)

Lemma not_admin_test (u : User) : role u <> "admin" -> (role u =? "admin")%string = false.
Proof. intros H. apply String.eqb_neq. exact H. Qed.

Lemma open_stage_cases (s : string) :
  open_stage s = true ->
  s = "pending" \/ s = "general_approved" \/ s = "department_approved".
Proof.
  unfold open_stage, stage_rank. intros H.
  destruct (String.eqb s "pending") eqn:E1; [apply String.eqb_eq in E1; auto|].
  destruct (String.eqb s "general_approved") eqn:E2; [apply String.eqb_eq in E2; auto|].
  destruct (String.eqb s "department_approved") eqn:E3; [apply String.eqb_eq in E3; auto|].
  destruct (String.eqb s "admin_approved"); simpl in H; discriminate.
Qed.

Lemma is_terminal_cases (s : string) :
  is_terminal s = true -> s = "admin_approved" \/ s = "rejected".
Proof.
  unfold is_terminal. intros H. apply Bool.orb_true_iff in H.
  destruct H as [H|H]; apply String.eqb_eq in H; auto.
Qed.

Lemma forward_refl (s : string) : forward s s = true.
Proof. unfold forward. rewrite String.eqb_refl. reflexivity. Qed.

(** Moving forward twice is moving forward. *)
Lemma forward_trans (a b c : string) :
  forward a b = true -> forward b c = true -> forward a c = true.
Proof.
  intros Hab Hbc.
  destruct (String.eqb a b) eqn:Eab; [apply String.eqb_eq in Eab; subst; exact Hbc|].
  destruct (String.eqb b c) eqn:Ebc; [apply String.eqb_eq in Ebc; subst; exact Hab|].
  unfold forward in Hab, Hbc. rewrite Eab in Hab. rewrite Ebc in Hbc. simpl in Hab, Hbc.
  apply Bool.orb_true_iff in Hab. apply Bool.orb_true_iff in Hbc.
  destruct Hab as [Hab|Hab].
  - destruct (stage_rank a) as [i|] eqn:Ra; [|discriminate].
    destruct (stage_rank b) as [j|] eqn:Rb; [|discriminate].
    apply Nat.ltb_lt in Hab.
    destruct Hbc as [Hbc|Hbc].
    + destruct (stage_rank c) as [k|] eqn:Rc; [|discriminate].
      apply Nat.ltb_lt in Hbc.
      unfold forward. rewrite Ra, Rc.
      assert (Hik : (i <? k)%nat = true) by (apply Nat.ltb_lt; lia).
      rewrite Hik. apply Bool.orb_true_iff. left. apply Bool.orb_true_r.
    + apply Bool.andb_true_iff in Hbc. destruct Hbc as [Ob Hc].
      unfold open_stage in Ob. rewrite Rb in Ob. apply Nat.ltb_lt in Ob.
      unfold forward, open_stage. rewrite Ra, Hc.
      assert (Hi : (i <? 3)%nat = true) by (apply Nat.ltb_lt; lia).
      rewrite Hi. apply Bool.orb_true_r.
  - apply Bool.andb_true_iff in Hab. destruct Hab as [_ Hb].
    apply String.eqb_eq in Hb. subst b. simpl in Hbc.
    destruct Hbc as [Hbc|Hbc]; discriminate.
Qed.

(** ** approve_request: frame facts *)

Lemma apply_action_request_id (u : User) (level act : string) (r : Request) :
  request_id (apply_action u level act r) = request_id r.
Proof. unfold apply_action. str_cases; reflexivity. Qed.

Lemma apply_flow_requests (rid : Z) (level act : string) (db : Db) :
  requests (apply_flow rid level act db) = requests db.
Proof. unfold apply_flow. str_cases; reflexivity. Qed.

Lemma apply_flow_request_approvals (rid : Z) (level act : string) (db : Db) :
  request_approvals (apply_flow rid level act db) = request_approvals db.
Proof. unfold apply_flow. str_cases; reflexivity. Qed.

(** A non-admin never gets a level on a request in a terminal state. *)
Lemma no_level_on_terminal (db : Db) (u : User) (r : Request) :
  is_terminal (status r) = true -> role u <> "admin" ->
  approval_level_for db u r = None.
Proof.
  intros Ht Hu. unfold approval_level_for. rewrite (not_admin_test u Hu).
  destruct (is_terminal_cases _ Ht) as [E|E]; rewrite E; simpl;
    destruct (username u =? "general_approver")%string; try reflexivity;
    destruct (first _ _); reflexivity.
Qed.

(** An accepted call appends exactly one approval row and touches no other. *)
Lemma approve_request_rows (db : Db) (u : User) (rid : Z) (act com : string) :
  forall r level,
    get_request db rid = Some r ->
    approval_level_for db u r = Some level ->
    request_approvals (fst (approve_request db u rid act com)) =
    (request_approvals db ++
      [mkRequestApproval (next_id ra_id (request_approvals db)) rid (user_id u)
                         level act com])%list
    /\ snd (approve_request db u rid act com) =
       ok (Approved ("Request " ++ act ++ "d successfully")%string
                    (status (apply_action u level act r))).
Proof.
  intros r level Hr Hl. unfold approve_request. rewrite Hr, Hl. simpl.
  rewrite apply_flow_request_approvals. simpl. split; reflexivity.
Qed.

(** C1, as the code has it. A request in a terminal state (admin_approved or
    rejected) turns away every actor whose role is not admin: the call
    answers 403 "You are not authorized to approve this request" and the
    store is returned as it was. An actor with role admin is still accepted
    on a terminal request: the call answers success and appends an approval
    row at level admin. *)
Theorem C1_terminal_closed_to_non_admins :
  forall (db : Db) (u : User) (rid : Z) (act com : string) (r : Request),
    get_request db rid = Some r ->
    is_terminal (status r) = true ->
    (role u <> "admin" ->
     approve_request db u rid act com =
     (db, error 403 "You are not authorized to approve this request"))
    /\ (role u = "admin" ->
        (exists s, snd (approve_request db u rid act com) =
                   ok (Approved ("Request " ++ act ++ "d successfully")%string s))
        /\ request_approvals (fst (approve_request db u rid act com)) =
           (request_approvals db ++
             [mkRequestApproval (next_id ra_id (request_approvals db)) rid (user_id u)
                                "admin" act com])%list).
Proof.
  intros db u rid act com r Hr Ht. split.
  - intros Hu. unfold approve_request.
    rewrite Hr, (no_level_on_terminal db u r Ht Hu). reflexivity.
  - intros Hu.
    assert (Hl : approval_level_for db u r = Some "admin").
    { unfold approval_level_for. rewrite Hu. reflexivity. }
    destruct (approve_request_rows db u rid act com r "admin" Hr Hl) as [Hrows Hresp].
    split; [eexists; exact Hresp | exact Hrows].
Qed.

Lemma C1_terminal_closed_witness :
  approve_request db_rejected it_approver 1 "approve" "late" =
  (db_rejected, error 403 "You are not authorized to approve this request").
Proof.
  refine (proj1 (@C1_terminal_closed_to_non_admins db_rejected it_approver 1
                   "approve" "late" _ _ _) _).
  - vm_compute. reflexivity.
  - vm_compute. reflexivity.
  - vm_compute. discriminate.
Defined.

(** C1 fails as stated: request 1 is rejected, an admin approves it, the call
    succeeds, a row is appended and the status leaves the terminal state. *)
Lemma C1_counterexample :
  request_status db_rejected 1 = Some "rejected"
  /\ role admin = "admin"
  /\ snd (approve_request db_rejected admin 1 "approve" "override") =
     ok (Approved "Request approved successfully" "admin_approved")
  /\ fst (approve_request db_rejected admin 1 "approve" "override") <> db_rejected
  /\ List.length (request_approvals (fst (approve_request db_rejected admin 1 "approve" "override")))
     = S (List.length (request_approvals db_rejected)).
Proof.
  repeat split; try (vm_compute; reflexivity).
  intros H. apply (f_equal (fun d => List.length (request_approvals d))) in H.
  vm_compute in H. discriminate.
Qed.

(** ** Status along sequences of operations *)

(** [create_request] only appends to the requests table. *)
Lemma create_request_requests (db : Db) (u : User) (m : Py.str) (d p : string) :
  exists extra, requests (fst (create_request db u m d p)) = (requests db ++ extra)%list.
Proof.
  unfold create_request.
  destruct (Py.empty (Py.strip m) || Py.falsy d);
    [exists []; simpl; rewrite app_nil_r; reflexivity|].
  destruct (active_approver db d) as [a|];
    [|exists []; simpl; rewrite app_nil_r; reflexivity].
  eexists.
  repeat match goal with
         | |- context [match ?x with Some _ => _ | None => _ end] => destruct x
         end; simpl; reflexivity.
Qed.

Lemma create_department_approver_requests (db : Db) (u : User) (d : string) (a : Z) :
  requests (fst (create_department_approver db u d a)) = requests db.
Proof.
  unfold create_department_approver.
  repeat match goal with
         | |- context [if ?b then _ else _] => destruct b
         | |- context [match ?x with Some _ => _ | None => _ end] => destruct x
         end; reflexivity.
Qed.

Lemma delete_department_approver_requests (db : Db) (u : User) (a : Z) :
  requests (fst (delete_department_approver db u a)) = requests db.
Proof.
  unfold delete_department_approver.
  destruct (negb _); [reflexivity|]. destruct (get_department_approver db a); reflexivity.
Qed.

Lemma approve_document_requests (db : Db) (u : User) (doc : Z) (act com : string) :
  requests (fst (approve_document db u doc act com)) = requests db.
Proof.
  unfold approve_document.
  destruct (negb _); [reflexivity|].
  destruct (first _ _); [|reflexivity].
  destruct (_ =? 0); [|reflexivity].
  destruct (get_document _ _); reflexivity.
Qed.

(** The status [approve_request] writes is forward of the one it read, for
    every level the authorisation check can hand out. *)
Lemma apply_action_forward (db : Db) (u : User) (act level : string) (r : Request) :
  approval_level_for db u r = Some level ->
  ((role u =? "admin")%string = true -> open_stage (status r) = true) ->
  forward (status r) (status (apply_action u level act r)) = true.
Proof.
  unfold approval_level_for. intros Hl Hopen.
  destruct (role u =? "admin")%string.
  - injection Hl as <-.
    destruct (open_stage_cases _ (Hopen eq_refl)) as [E|[E|E]];
      unfold apply_action;
      destruct (act =? "approve")%string; simpl; try (rewrite E; reflexivity);
      destruct (act =? "reject")%string; simpl; try (rewrite E; reflexivity);
      apply forward_refl.
  - assert (Hstage :
      (status r = "pending" /\ level = "general")
      \/ (status r = "general_approved" /\ level = "department")).
    { destruct (username u =? "general_approver")%string.
      - destruct (status r =? "pending")%string eqn:E; [|discriminate].
        apply String.eqb_eq in E. injection Hl as <-. auto.
      - destruct (first _ _); [|discriminate].
        destruct (status r =? "general_approved")%string eqn:E; [|discriminate].
        apply String.eqb_eq in E. injection Hl as <-. auto. }
    destruct Hstage as [[E ->]|[E ->]];
      unfold apply_action;
      destruct (act =? "approve")%string; simpl; try (rewrite E; reflexivity);
      destruct (act =? "reject")%string; simpl; try (rewrite E; reflexivity);
      apply forward_refl.
Qed.

(** One operation moves every status it finds forward, or leaves it. *)
Lemma step_forward (db : Db) (o : op) (rid : Z) (s : string) :
  admin_on_open db o = true ->
  request_status db rid = Some s ->
  exists s', request_status (step db o) rid = Some s' /\ forward s s' = true.
Proof.
  intros Hg Hs.
  assert (Hsame : forall db', requests db' = requests db ->
            exists s', request_status db' rid = Some s' /\ forward s s' = true).
  { intros db' E. exists s. unfold request_status, get_request in *.
    rewrite E. split; [exact Hs | apply forward_refl]. }
  destruct o as [u m d p | u rid0 act com | u d a | u a | u doc act com]; simpl.
  - destruct (create_request_requests db u m d p) as [extra E].
    exists s. split; [|apply forward_refl].
    unfold request_status, get_request in *. rewrite E, first_app.
    destruct (first _ (requests db)); [exact Hs | discriminate].
  - unfold approve_request.
    destruct (get_request db rid0) as [r|] eqn:Hr; [|apply Hsame; reflexivity].
    destruct (approval_level_for db u r) as [level|] eqn:Hl; [|apply Hsame; reflexivity].
    simpl. unfold request_status, get_request in *.
    rewrite apply_flow_requests. simpl.
    destruct (Z.eq_dec rid rid0) as [->|Hne].
    + rewrite first_update_first.
      * rewrite Hr in *. simpl in *. injection Hs as <-.
        eexists. split; [reflexivity|].
        apply (apply_action_forward db u act level r Hl).
        intros Ha. simpl in Hg. rewrite Ha in Hg. simpl in Hg.
        unfold get_request in Hg. rewrite Hr in Hg. exact Hg.
      * intros x Hx. rewrite apply_action_request_id. exact Hx.
    + rewrite first_update_other.
      * exists s. split; [exact Hs | apply forward_refl].
      * intros x Hx. apply Z.eqb_eq in Hx. apply Z.eqb_neq. congruence.
      * intros x Hx. rewrite apply_action_request_id.
        apply Z.eqb_eq in Hx. apply Z.eqb_neq. congruence.
  - apply Hsame, create_department_approver_requests.
  - apply Hsame, delete_department_approver_requests.
  - apply Hsame, approve_document_requests.
Qed.

(** C2, as the code has it. Along every sequence of operations that keep
    the request (create_request, approve_request, the approver registry and
    approve_document) in which no role=admin actor calls approve_request on
    a request outside the open states pending, general_approved and
    department_approved, a request's status only stays, moves up the chain
    pending -> general_approved -> department_approved -> admin_approved, or
    jumps to rejected from an open state. *)
Theorem C2_status_moves_forward :
  forall (ops : list op) (db : Db) (rid : Z) (s : string),
    admins_on_open db ops = true ->
    request_status db rid = Some s ->
    exists s', request_status (run db ops) rid = Some s' /\ forward s s' = true.
Proof.
  induction ops as [|o ops IH]; intros db rid s Hg Hs.
  - exists s. split; [exact Hs | apply forward_refl].
  - simpl in Hg. apply Bool.andb_true_iff in Hg. destruct Hg as [Ho Hrest].
    destruct (step_forward db o rid s Ho Hs) as [s1 [Hs1 F1]].
    destruct (IH (step db o) rid s1 Hrest Hs1) as [s2 [Hs2 F2]].
    exists s2. split; [exact Hs2 | exact (forward_trans _ _ _ F1 F2)].
Qed.

Lemma C2_status_moves_forward_witness :
  exists s', request_status
               (run db_created
                    [OpApproveRequest general 1 "approve" "fine";
                     OpApproveRequest user1 1 "approve" "me too";
                     OpApproveRequest it_approver 1 "approve" "ok";
                     OpCreateRequest user1 (Py.text "Second request") "IT" "high";
                     OpApproveRequest admin 1 "approve" "done"]) 1 = Some s'
             /\ forward "pending" s' = true.
Proof.
  apply (C2_status_moves_forward
           [OpApproveRequest general 1 "approve" "fine";
            OpApproveRequest user1 1 "approve" "me too";
            OpApproveRequest it_approver 1 "approve" "ok";
            OpCreateRequest user1 (Py.text "Second request") "IT" "high";
            OpApproveRequest admin 1 "approve" "done"] db_created 1 "pending").
  - vm_compute. reflexivity.
  - vm_compute. reflexivity.
Defined.

(** C2 fails as stated: the admin's approval moves request 1 out of the
    terminal state rejected, and a later admin rejection moves it out of
    admin_approved. *)
Lemma C2_counterexample :
  request_status db_rejected 1 = Some "rejected"
  /\ request_status (step db_rejected (OpApproveRequest admin 1 "approve" "override")) 1
     = Some "admin_approved"
  /\ forward "rejected" "admin_approved" = false
  /\ request_status (step db_reopened (OpApproveRequest admin 1 "reject" "again")) 1
     = Some "rejected"
  /\ forward "admin_approved" "rejected" = false.
Proof. repeat split; vm_compute; reflexivity. Qed.

(** ** Approval rows *)

Lemma empty_false (s : Py.str) : s <> [] -> Py.empty s = false.
Proof. destruct s; [congruence | reflexivity]. Qed.

Lemma falsy_false (s : string) : s <> EmptyString -> Py.falsy s = false.
Proof. destruct s; [congruence | reflexivity]. Qed.

(** The rows an accepted [create_request] appends: one pending row per
    stage whose approver account resolves, all for the new request. *)
Lemma create_request_rows (db : Db) (u : User) (m : Py.str) (d p : string)
    (da : DepartmentApprover) :
  Py.strip m <> [] -> d <> EmptyString ->
  active_approver db d = Some da ->
  exists added,
    request_approvals (fst (create_request db u m d p)) =
    (request_approvals db ++ added)%list
    /\ map level_action added = stages_created db
    /\ Forall (fun a => ra_request_id a = next_id request_id (requests db)) added.
Proof.
  intros Hm Hd Ha. unfold create_request, stages_created.
  rewrite (empty_false _ Hm), (falsy_false _ Hd), Ha. simpl.
  unfold general_approver, admin_approver, get_user.
  repeat (cbn [users requests request_approvals fst snd add_flow add_request_approval
               with_requests with_request_approvals with_workflow_flow_display];
          match goal with
          | |- context [match first ?q (users db) with Some _ => _ | None => _ end] =>
              destruct (first q (users db))
          end);
    cbn [users requests request_approvals fst snd add_flow add_request_approval
         with_requests with_request_approvals with_workflow_flow_display];
    repeat rewrite <- app_assoc; simpl;
    eexists; (split; [reflexivity | split; [reflexivity | repeat constructor]]).
Qed.

(** Any call of [approve_request] keeps the rows that were there and adds at
    most one. *)
Lemma approve_request_appends (db : Db) (u : User) (rid : Z) (act com : string) :
  exists added,
    request_approvals (fst (approve_request db u rid act com)) =
    (request_approvals db ++ added)%list
    /\ match snd (approve_request db u rid act com) with
       | ok _ =>
           exists r level,
             get_request db rid = Some r
             /\ approval_level_for db u r = Some level
             /\ added = [mkRequestApproval (next_id ra_id (request_approvals db)) rid
                                           (user_id u) level act com]
       | _ => added = []
       end.
Proof.
  unfold approve_request.
  destruct (get_request db rid) as [r|] eqn:Hr;
    [|exists []; simpl; rewrite app_nil_r; split; reflexivity].
  destruct (approval_level_for db u r) as [level|] eqn:Hl;
    [|exists []; simpl; rewrite app_nil_r; split; reflexivity].
  simpl. rewrite apply_flow_request_approvals. simpl.
  eexists. split; [reflexivity|]. exists r, level.
  split; [reflexivity|]. split; [exact Hl | reflexivity].
Qed.

(** C3, as the code has it. [create_request] gives the new request one
    pending RequestApproval row per stage whose approver account resolves
    (general, department, admin, in that order). [approve_request] never
    rewrites a row: every row of the table stays where and as it was, an
    accepted call appends one new row carrying the actor, the approval
    level the authorisation check gave that actor on that request, the
    action and the comments, and a refused call appends nothing. *)
Theorem C3_approval_rows_are_appended :
  (forall (db : Db) (u : User) (m : Py.str) (d p : string) (da : DepartmentApprover),
      Py.strip m <> [] -> d <> EmptyString -> active_approver db d = Some da ->
      exists added,
        request_approvals (fst (create_request db u m d p)) =
        (request_approvals db ++ added)%list
        /\ map level_action added = stages_created db
        /\ Forall (fun a => ra_request_id a = next_id request_id (requests db)) added)
  /\ (forall (db : Db) (u : User) (rid : Z) (act com : string),
         exists added,
           request_approvals (fst (approve_request db u rid act com)) =
           (request_approvals db ++ added)%list
           /\ match snd (approve_request db u rid act com) with
              | ok _ =>
                  exists r level,
                    get_request db rid = Some r
                    /\ approval_level_for db u r = Some level
                    /\ added = [mkRequestApproval (next_id ra_id (request_approvals db))
                                                  rid (user_id u) level act com]
              | _ => added = []
              end).
Proof.
  split.
  - intros db u m d p da. apply create_request_rows.
  - apply approve_request_appends.
Qed.

Lemma C3_approval_rows_witness :
  exists added,
    request_approvals (fst (create_request seed user1 laptop "IT" "normal")) =
    (request_approvals seed ++ added)%list
    /\ map level_action added = stages_created seed
    /\ Forall (fun a => ra_request_id a = next_id request_id (requests seed)) added.
Proof.
  apply (proj1 C3_approval_rows_are_appended seed user1 laptop "IT" "normal"
               (mkDepartmentApprover 1 "IT" 3 true)).
  - vm_compute. discriminate.
  - discriminate.
  - vm_compute. reflexivity.
Defined.

(** C3 fails as stated: after the general approver approves request 1 the
    general stage has two rows, and its placeholder row is still pending. *)
Lemma C3_counterexample :
  count_level db_created 1 "general" = 1
  /\ snd (approve_request db_created general 1 "approve" "fine") =
     ok (Approved "Request approved successfully" "general_approved")
  /\ count_level db_general 1 "general" = 2
  /\ map (fun a => (ra_id a, level_action a))
         (filter (fun a => (approval_level a =? "general")%string)
                 (request_approvals db_general)) =
     [(1, ("general", "pending")); (4, ("general", "approve"))].
Proof. repeat split; vm_compute; reflexivity. Qed.

(** ** Authorisation *)

Lemma first_some_existsb {A : Type} (p : A -> bool) (l : list A) (x : A) :
  first p l = Some x -> existsb p l = true.
Proof.
  intros H. apply first_some_in in H. apply existsb_exists. exists x. exact H.
Qed.

(** The code's check hands out a level only to an actor the specification
    expects at the current stage. *)
Lemma level_only_if_may_act (db : Db) (u : User) (r : Request) :
  may_act db u r = false -> approval_level_for db u r = None.
Proof.
  unfold may_act, approval_level_for, is_department_approver. intros H.
  apply Bool.orb_false_iff in H. destruct H as [H Hdept].
  apply Bool.orb_false_iff in H. destruct H as [Hadmin Hgen].
  rewrite Hadmin.
  destruct (username u =? "general_approver")%string.
  - rewrite Bool.andb_true_r in Hgen. rewrite Hgen. reflexivity.
  - destruct (first _ (department_approvers db)) as [a|] eqn:Ha; [|reflexivity].
    apply first_some_existsb in Ha. rewrite Ha, Bool.andb_true_r in Hdept.
    rewrite Hdept. reflexivity.
Qed.

(** C4. On a request that is general_approved, a call by an actor whose
    role is not admin is accepted only if the department-approver table
    holds an active mapping of that actor to the request's department. An
    actor the current stage does not expect (not an admin, not the general
    approver on a pending request, not the active department approver on a
    general_approved one) is answered 403 "You are not authorized to approve
    this request" and the store is returned as it was. *)
Theorem C4_only_expected_actor_may_act :
  forall (db : Db) (u : User) (rid : Z) (act com : string) (r : Request),
    get_request db rid = Some r ->
    (status r = "general_approved" ->
     role u <> "admin" ->
     (exists b, snd (approve_request db u rid act com) = ok b) ->
     exists a, In a (department_approvers db)
               /\ da_approver_id a = user_id u
               /\ da_department a = department r
               /\ is_active a = true)
    /\ (may_act db u r = false ->
        approve_request db u rid act com =
        (db, error 403 "You are not authorized to approve this request")).
Proof.
  intros db u rid act com r Hr. split.
  - intros Hs Hu [b Hb]. unfold approve_request in Hb. rewrite Hr in Hb.
    unfold approval_level_for in Hb. rewrite (not_admin_test u Hu), Hs in Hb.
    destruct (username u =? "general_approver")%string; [simpl in Hb; discriminate|].
    destruct (first _ (department_approvers db)) as [a|] eqn:Ha;
      [|simpl in Hb; discriminate].
    apply first_some_in in Ha. destruct Ha as [Hin Hp].
    apply Bool.andb_true_iff in Hp. destruct Hp as [Hp Hact].
    apply Bool.andb_true_iff in Hp. destruct Hp as [Hid Hdep].
    exists a. repeat split; try assumption.
    + apply Z.eqb_eq. exact Hid.
    + apply String.eqb_eq. exact Hdep.
  - intros Hno. unfold approve_request.
    rewrite Hr, (level_only_if_may_act db u r Hno). reflexivity.
Qed.

Lemma C4_only_expected_actor_witness :
  (exists a, In a (department_approvers db_general)
             /\ da_approver_id a = user_id it_approver
             /\ da_department a = department request1_general
             /\ is_active a = true)
  /\ approve_request db_general hr_approver 1 "approve" "mine" =
     (db_general, error 403 "You are not authorized to approve this request").
Proof.
  split.
  - refine (proj1 (C4_only_expected_actor_may_act db_general it_approver 1
                     "approve" "ok" request1_general _) _ _ _).
    + vm_compute. reflexivity.
    + reflexivity.
    + vm_compute. discriminate.
    + eexists. vm_compute. reflexivity.
  - refine (proj2 (C4_only_expected_actor_may_act db_general hr_approver 1
                     "approve" "mine" request1_general _) _).
    + vm_compute. reflexivity.
    + vm_compute. reflexivity.
Defined.

(** ** create_request *)

(** C5, as the code has it. A call of [create_request] that names a
    department with no active DepartmentApprover creates no row of any
    table. With a non-blank message and a department name it answers 404
    "No approver found for <department> department"; with a blank message
    (or no department) the required-fields guard answers 400 first. *)
Theorem C5_no_approver_creates_nothing :
  forall (db : Db) (u : User) (m : Py.str) (d p : string),
    active_approver db d = None ->
    fst (create_request db u m d p) = db
    /\ (Py.strip m <> [] -> d <> EmptyString ->
        snd (create_request db u m d p) =
        error 404 ("No approver found for " ++ d ++ " department")%string)
    /\ (Py.strip m = [] \/ d = EmptyString ->
        snd (create_request db u m d p) =
        error 400 "Message and department are required").
Proof.
  intros db u m d p Ha. unfold create_request. rewrite Ha. repeat split.
  - destruct (Py.empty (Py.strip m) || Py.falsy d); reflexivity.
  - intros Hm Hd. rewrite (empty_false _ Hm), (falsy_false _ Hd). reflexivity.
  - intros [E|E]; rewrite E; simpl; [reflexivity|].
    rewrite Bool.orb_true_r. reflexivity.
Qed.

Lemma C5_no_approver_witness :
  fst (create_request seed user1 (Py.text "Please review my contract") "Legal" "normal") = seed
  /\ snd (create_request seed user1 (Py.text "Please review my contract") "Legal" "normal") =
     error 404 "No approver found for Legal department".
Proof.
  assert (H : active_approver seed "Legal" = None) by (vm_compute; reflexivity).
  destruct (C5_no_approver_creates_nothing seed user1 (Py.text "Please review my contract")
              "Legal" "normal" H) as [H1 [H2 _]].
  split; [exact H1 | apply H2; vm_compute; discriminate].
Defined.

(** C5 fails as stated: Legal has no active approver, and a call with a
    blank message (three spaces; or the ideographic space U+3000 and the
    no-break space U+00A0, which [strip] removes as well) is answered by the
    required-fields guard, not by the no-approver error. *)
Lemma C5_counterexample :
  active_approver seed "Legal" = None
  /\ create_request seed user1 (Py.text "   ") "Legal" "normal" =
     (seed, error 400 "Message and department are required")
  /\ create_request seed user1 (Py.text "   ") "Legal" "normal" <>
     (seed, error 404 "No approver found for Legal department")
  /\ create_request seed user1 [12288%N; 160%N] "Legal" "normal" =
     (seed, error 400 "Message and department are required").
Proof.
  repeat split; try (vm_compute; reflexivity).
  vm_compute. discriminate.
Qed.

(** Once the department approver is resolved, the answer of
    [create_request] depends only on whether that approver's user row
    exists; the general_approver and admin accounts play no part in it. *)
Lemma create_request_response (db : Db) (u : User) (m : Py.str) (d p : string)
    (da : DepartmentApprover) :
  Py.strip m <> [] -> d <> EmptyString ->
  active_approver db d = Some da ->
  snd (create_request db u m d p) =
  match get_user db (da_approver_id da) with
  | Some x => ok (Created (next_id request_id (requests db))
                          "Request created and routed successfully"
                          (da_approver_id da) (username x))
  | None => failed "Request creation failed: " AttributeError
  end.
Proof.
  intros Hm Hd Ha. unfold create_request.
  rewrite (empty_false _ Hm), (falsy_false _ Hd), Ha. simpl.
  unfold general_approver, admin_approver, get_user.
  repeat (cbn [users requests request_approvals fst snd add_flow add_request_approval
               with_requests with_request_approvals with_workflow_flow_display];
          match goal with
          | |- context [match first ?q (users db) with Some _ => _ | None => _ end] =>
              let E := fresh "E" in destruct (first q (users db)) eqn:E
          end);
    cbn [snd]; first [reflexivity | congruence].
Qed.

(** C6, as the code has it. [create_request] has no configuration error:
    with a non-blank message and an active approver for the department it
    never answers an error about a missing general_approver or admin
    account, it skips the approval row of the stage whose account is absent
    and still answers success (provided the department approver's user row
    exists). When both accounts exist it appends exactly three
    RequestApproval rows, general, department, admin, all pending. *)
Theorem C6_missing_accounts_are_skipped :
  forall (db : Db) (u : User) (m : Py.str) (d p : string) (da : DepartmentApprover),
    Py.strip m <> [] -> d <> EmptyString ->
    active_approver db d = Some da ->
    (exists added,
        request_approvals (fst (create_request db u m d p)) =
        (request_approvals db ++ added)%list
        /\ map level_action added = stages_created db
        /\ (general_approver db <> None -> admin_approver db <> None ->
            map level_action added =
            [("general", "pending"); ("department", "pending"); ("admin", "pending")])
        /\ (general_approver db = None ->
            ~ In "general" (map approval_level added))
        /\ (admin_approver db = None ->
            ~ In "admin" (map approval_level added)))
    /\ (forall code msg, snd (create_request db u m d p) <> error code msg)
    /\ (get_user db (da_approver_id da) <> None ->
        exists b, snd (create_request db u m d p) = ok b).
Proof.
  intros db u m d p da Hm Hd Ha. split; [|split].
  - destruct (create_request_rows db u m d p da Hm Hd Ha) as [added [Hrows [Hmap _]]].
    exists added. split; [exact Hrows|]. split; [exact Hmap|].
    assert (Hlev : map approval_level added = map fst (stages_created db)).
    { rewrite <- Hmap, map_map. reflexivity. }
    unfold stages_created in *.
    split; [|split].
    + intros Hg Hadm. rewrite Hmap.
      destruct (general_approver db); [|congruence].
      destruct (admin_approver db); [|congruence]. reflexivity.
    + intros Hg. rewrite Hlev, Hg.
      destruct (admin_approver db); simpl; intros H;
        repeat (destruct H as [H|H]; try discriminate); exact H.
    + intros Hadm. rewrite Hlev, Hadm.
      destruct (general_approver db); simpl; intros H;
        repeat (destruct H as [H|H]; try discriminate); exact H.
  - intros code msg. rewrite (create_request_response db u m d p da Hm Hd Ha).
    destruct (get_user db (da_approver_id da)); discriminate.
  - intros Hu. rewrite (create_request_response db u m d p da Hm Hd Ha).
    destruct (get_user db (da_approver_id da)); [eexists; reflexivity | congruence].
Qed.

Lemma C6_missing_accounts_witness :
  exists b, snd (create_request seed_no_general user1 laptop "IT" "normal")
            = ok b.
Proof.
  refine (proj2 (proj2 (C6_missing_accounts_are_skipped seed_no_general user1
                          laptop "IT" "normal"
                          (mkDepartmentApprover 1 "IT" 3 true) _ _ _)) _).
  - vm_compute. discriminate.
  - discriminate.
  - vm_compute. reflexivity.
  - vm_compute. discriminate.
Defined.

(** C6 fails as stated: with no general_approver account the call answers
    success and leaves two approval rows, department and admin. *)
Lemma C6_counterexample :
  general_approver seed_no_general = None
  /\ snd (create_request seed_no_general user1 laptop "IT" "normal") =
     ok (Created 1 "Request created and routed successfully" 3 "it_approver")
  /\ map level_action
         (request_approvals
            (fst (create_request seed_no_general user1 laptop "IT" "normal")))
     = [("department", "pending"); ("admin", "pending")].
Proof. repeat split; vm_compute; reflexivity. Qed.

(** ** approve_document *)

(** C7. Where the code departs from it: a step closed by the action
    "reject" is stored with status "reject", which the rejected-steps count
    (status "rejected") never sees. When that action closes the last pending
    step of a document none of whose steps carries the status "rejected",
    the document is marked approved. *)
Theorem C7_reject_marks_document_approved :
  forall (db : Db) (u : User) (doc : Z) (com : string) (d : Document),
    role u = "admin" \/ role u = "approver" ->
    first (pending_step_of doc (user_id u)) (workflow_steps db) <> None ->
    count_steps db doc "pending" = 1 ->
    count_steps db doc "rejected" = 0 ->
    get_document db doc = Some d ->
    snd (approve_document db u doc "reject" com) = flash "Document rejected successfully!"
    /\ get_document (fst (approve_document db u doc "reject" com)) doc =
       Some (set_doc_status "approved" d)
    /\ count_steps (fst (approve_document db u doc "reject" com)) doc "rejected" = 0.
Proof.
  intros db u doc com d Hrole Hstep Hpend Hrej Hdoc.
  unfold approve_document.
  assert (Hr : negb ((role u =? "admin")%string || (role u =? "approver")%string) = false).
  { destruct Hrole as [E|E]; rewrite E; reflexivity. }
  rewrite Hr.
  destruct (first (pending_step_of doc (user_id u)) (workflow_steps db)) as [w|] eqn:Hw;
    [clear Hstep | congruence].
  assert (Hw' : first (pending_step_of doc (user_id u)) (workflow_steps db) <> None)
    by congruence.
  assert (P0 : count_steps
                 (with_workflow_steps
                    (with_approvals db
                       (approvals db ++
                        [mkApproval (next_id ap_id (approvals db)) doc (user_id u)
                                    "reject" com]))
                    (update_first (pending_step_of doc (user_id u))
                                  (close_step "reject" com) (workflow_steps db)))
                 doc "pending" = 0).
  { unfold count_steps in *. simpl. rewrite count_update_first.
    - lia.
    - unfold pending_step_of. intros x Hx.
      apply Bool.andb_true_iff in Hx. destruct Hx as [Hx Hs].
      apply Bool.andb_true_iff in Hx. destruct Hx as [Hd _].
      rewrite Hd, Hs. reflexivity.
    - intros x _. simpl. apply Bool.andb_false_r.
    - exact Hw'. }
  assert (R0 : count_steps
                 (with_workflow_steps
                    (with_approvals db
                       (approvals db ++
                        [mkApproval (next_id ap_id (approvals db)) doc (user_id u)
                                    "reject" com]))
                    (update_first (pending_step_of doc (user_id u))
                                  (close_step "reject" com) (workflow_steps db)))
                 doc "rejected" = 0).
  { unfold count_steps, count in *. simpl. rewrite filter_update_first.
    - exact Hrej.
    - unfold pending_step_of. intros x Hx.
      apply Bool.andb_true_iff in Hx. destruct Hx as [_ Hs].
      apply String.eqb_eq in Hs. rewrite Hs. apply Bool.andb_false_r.
    - intros x _. simpl. apply Bool.andb_false_r. }
  cbn [workflow_steps with_approvals]. rewrite P0, R0. simpl.
  unfold get_document in *. simpl. rewrite Hdoc. simpl.
  split; [reflexivity|]. split.
  - rewrite first_update_first; [rewrite Hdoc; reflexivity|].
    intros x Hx. exact Hx.
  - unfold count_steps in *. simpl. exact R0.
Qed.

Lemma C7_reject_marks_document_approved_witness :
  snd (approve_document db_document it_approver 1 "reject" "not acceptable") =
  flash "Document rejected successfully!"
  /\ get_document (fst (approve_document db_document it_approver 1 "reject" "not acceptable")) 1 =
     Some (set_doc_status "approved" (mkDocument 1 "Travel policy" "pending" 5))
  /\ count_steps (fst (approve_document db_document it_approver 1 "reject" "not acceptable"))
                 1 "rejected" = 0.
Proof.
  apply (C7_reject_marks_document_approved db_document it_approver 1 "not acceptable"
           (mkDocument 1 "Travel policy" "pending" 5)).
  - right. reflexivity.
  - vm_compute. discriminate.
  - vm_compute. reflexivity.
  - vm_compute. reflexivity.
  - vm_compute. reflexivity.
Defined.

(** ** The approver registry *)

(** C8. Where the code departs from it: the unique constraint on
    (department, approver_id) still counts a deactivated mapping. With no
    active approver left for the department, creating a mapping for a user
    who was mapped to it before is refused by the store: the handler answers
    500 "Failed to create approver: ..." and nothing is inserted. *)
Theorem C8_deactivated_mapping_blocks_recreation :
  forall (db : Db) (u : User) (d : string) (a : Z),
    role u = "admin" ->
    d <> EmptyString -> a <> 0 ->
    get_user db a <> None ->
    active_approver db d = None ->
    unique_department_approver db d a = false ->
    create_department_approver db u d a =
    (db, failed "Failed to create approver: " (IntegrityError "unique_department_approver")).
Proof.
  intros db u d a Hu Hd Ha Huser Hactive Huniq.
  unfold create_department_approver.
  rewrite Hu, (falsy_false _ Hd). simpl.
  destruct (a =? 0) eqn:E; [apply Z.eqb_eq in E; congruence|].
  destruct (get_user db a); [|congruence].
  rewrite Hactive, Huniq. reflexivity.
Qed.

Lemma C8_deactivated_mapping_witness :
  create_department_approver db_it_vacant admin "IT" 3 =
  (db_it_vacant,
   failed "Failed to create approver: " (IntegrityError "unique_department_approver")).
Proof.
  apply C8_deactivated_mapping_blocks_recreation.
  - reflexivity.
  - discriminate.
  - discriminate.
  - vm_compute. discriminate.
  - vm_compute. reflexivity.
  - vm_compute. reflexivity.
Defined.

(** What does hold: a second active approver is refused, and once the
    mapping is deactivated a user never mapped to the department is
    accepted. *)
Lemma create_department_approver_duplicate (db : Db) (u : User) (d : string) (a : Z) :
  role u = "admin" -> d <> EmptyString -> a <> 0 -> get_user db a <> None ->
  active_approver db d <> None ->
  create_department_approver db u d a =
  (db, error 400 ("Department " ++ d ++ " already has an approver")%string).
Proof.
  intros Hu Hd Ha Huser Hactive. unfold create_department_approver.
  rewrite Hu, (falsy_false _ Hd). simpl.
  destruct (a =? 0) eqn:E; [apply Z.eqb_eq in E; congruence|].
  destruct (get_user db a); [|congruence].
  destruct (active_approver db d); [reflexivity | congruence].
Qed.

Lemma create_department_approver_fresh (db : Db) (u : User) (d : string) (a : Z) :
  role u = "admin" -> d <> EmptyString -> a <> 0 -> get_user db a <> None ->
  active_approver db d = None ->
  unique_department_approver db d a = true ->
  create_department_approver db u d a =
  (with_department_approvers db
     (department_approvers db ++
      [mkDepartmentApprover (next_id da_id (department_approvers db)) d a true]),
   ok (ApproverCreated ("Department approver created successfully for " ++ d)%string
                       (next_id da_id (department_approvers db)))).
Proof.
  intros Hu Hd Ha Huser Hactive Huniq. unfold create_department_approver.
  rewrite Hu, (falsy_false _ Hd). simpl.
  destruct (a =? 0) eqn:E; [apply Z.eqb_eq in E; congruence|].
  destruct (get_user db a); [|congruence].
  rewrite Hactive, Huniq. reflexivity.
Qed.

Example approver_registry_scenario :
  snd (create_department_approver seed admin "IT" 4) =
    error 400 "Department IT already has an approver"
  /\ snd (delete_department_approver seed admin 1) =
     ok (Done "Department approver deactivated successfully")
  /\ active_approver db_it_vacant "IT" = None
  /\ snd (create_department_approver db_it_vacant admin "IT" 4) =
     ok (ApproverCreated "Department approver created successfully for IT" 2)
  /\ snd (create_department_approver db_it_vacant admin "IT" 3) =
     failed "Failed to create approver: " (IntegrityError "unique_department_approver").
Proof. repeat split; vm_compute; reflexivity. Qed.

(** ** Admin override and deletion *)

Lemma admin_flow_set_status (rid : Z) (s : string) (f : WorkflowFlowDisplay) :
  admin_flow rid (set_wfd_status s f) = admin_flow rid f.
Proof. reflexivity. Qed.

(** A new key is larger than every key in use. *)
Lemma next_id_above {A : Type} (key : A -> Z) (rows : list A) (x : A) :
  In x rows -> key x < next_id key rows.
Proof.
  unfold next_id. induction rows as [|y rows IH]; cbn [fold_right In]; [tauto|].
  intros [->|H]; [lia|]. specialize (IH H). lia.
Qed.

Lemma next_id_unused {A : Type} (key : A -> Z) (rows : list A) :
  first (fun x => key x =? next_id key rows) rows = None.
Proof.
  destruct (first _ rows) as [x|] eqn:E; [|reflexivity].
  apply first_some_in in E. destruct E as [Hin Hk].
  apply Z.eqb_eq in Hk. pose proof (next_id_above key rows x Hin). lia.
Qed.

(** The request row a successful [create_request] appends. *)
Lemma create_request_stores (db : Db) (u : User) (m : Py.str) (d p : string)
    (da : DepartmentApprover) :
  Py.strip m <> [] -> d <> EmptyString ->
  active_approver db d = Some da ->
  requests (fst (create_request db u m d p)) =
  (requests db ++
   [mkRequest (next_id request_id (requests db))
      (Py.text "Request: " ++ Py.take 50 (Py.strip m)
         ++ (if (50 <? Py.len (Py.strip m))%nat then Py.text "..." else []))
      (Py.strip m) d "pending" p (user_id u) (Some (da_approver_id da)) None])%list.
Proof.
  intros Hm Hd Ha. unfold create_request.
  rewrite (empty_false _ Hm), (falsy_false _ Hd), Ha. cbv zeta.
  unfold general_approver, admin_approver, get_user.
  repeat (cbn [users requests request_approvals fst snd add_flow add_request_approval
               with_requests with_request_approvals with_workflow_flow_display];
          match goal with
          | |- context [match first ?q (users db) with Some _ => _ | None => _ end] =>
              destruct (first q (users db))
          end);
    reflexivity.
Qed.

(** The flow display of a new request starts with the submitter's row. *)
Lemma create_request_flows (db : Db) (u : User) (m : Py.str) (d p : string)
    (da : DepartmentApprover) :
  Py.strip m <> [] -> d <> EmptyString ->
  active_approver db d = Some da ->
  exists rest,
    workflow_flow_display (fst (create_request db u m d p)) =
    (workflow_flow_display db ++
     mkWorkflowFlowDisplay (next_id wfd_id (workflow_flow_display db))
       (next_id request_id (requests db)) 0 "User (Submitter)" (user_id u)
       (username u) "user" (user_department u) "completed" :: rest)%list.
Proof.
  intros Hm Hd Ha. unfold create_request.
  rewrite (empty_false _ Hm), (falsy_false _ Hd), Ha. cbn [orb]. cbv zeta.
  unfold general_approver, admin_approver, get_user.
  repeat (cbn [users requests request_approvals workflow_flow_display fst snd add_flow
               add_request_approval with_requests with_request_approvals
               with_workflow_flow_display];
          match goal with
          | |- context [match first ?q (users db) with Some _ => _ | None => _ end] =>
              destruct (first q (users db))
          end);
    cbn [users requests request_approvals workflow_flow_display fst snd add_flow
         add_request_approval with_requests with_request_approvals
         with_workflow_flow_display];
    repeat rewrite <- app_assoc; cbn [app]; eexists; reflexivity.
Qed.

(** A new request resolves under its id. *)
Lemma create_request_resolves (db : Db) (u : User) (m : Py.str) (d p : string)
    (da : DepartmentApprover) :
  Py.strip m <> [] -> d <> EmptyString ->
  active_approver db d = Some da ->
  exists r,
    get_request (fst (create_request db u m d p)) (next_id request_id (requests db))
    = Some r
    /\ status r = "pending"
    /\ department_approver_id r = Some (da_approver_id da)
    /\ admin_approver_id r = None.
Proof.
  intros Hm Hd Ha. unfold get_request.
  rewrite (create_request_stores db u m d p da Hm Hd Ha), first_app,
    (next_id_unused request_id (requests db)).
  unfold first. cbn [find request_id]. rewrite Z.eqb_refl.
  eexists. split; [reflexivity|]. repeat split.
Qed.

(** The two outcomes of [delete_request]: nothing changes and the answer is
    not a success, or the request had no flow row and goes with its
    approvals. *)
Lemma delete_request_cases (db : Db) (u : User) (rid : Z) :
  (fst (delete_request db u rid) = db
   /\ forall b, snd (delete_request db u rid) <> ok b)
  \/ (role u = "admin"
      /\ workflow_flow db rid = []
      /\ delete_request db u rid =
         (with_requests
            (with_request_approvals db
               (delete (fun a => ra_request_id a =? rid) (request_approvals db)))
            (delete (fun r => request_id r =? rid) (requests db)),
          ok (Done "Request deleted successfully"))).
Proof.
  unfold delete_request.
  destruct (role u =? "admin")%string eqn:Hu; cbn [negb];
    [|left; split; [reflexivity | discriminate]].
  destruct (get_request db rid); [|left; split; [reflexivity | discriminate]].
  change (workflow_flow (with_request_approvals db
                           (delete (fun a => ra_request_id a =? rid) (request_approvals db)))
                        rid)
    with (workflow_flow db rid).
  destruct (workflow_flow db rid); [|left; split; [reflexivity | discriminate]].
  right. apply String.eqb_eq in Hu. split; [exact Hu|]. split; reflexivity.
Qed.

(** C9, as the code has it. On a request in any status, an approve action
    by a user whose role is admin is accepted at level admin: the answer is
    success with the new status admin_approved, the request row gets that
    status and the admin as admin_approver, the one approval row appended is
    the admin's, no flow display row other than the admin step's is touched,
    and department_approver is left as it was. For a request made by
    [create_request] that is the department's assigned approver, written at
    creation: it is set although the department stage never ran. *)
Theorem C9_admin_approves_directly :
  (forall (db : Db) (u : User) (rid : Z) (com : string) (r : Request),
      get_request db rid = Some r ->
      role u = "admin" ->
      snd (approve_request db u rid "approve" com) =
        ok (Approved "Request approved successfully" "admin_approved")
      /\ (exists r', get_request (fst (approve_request db u rid "approve" com)) rid = Some r'
                     /\ status r' = "admin_approved"
                     /\ admin_approver_id r' = Some (user_id u)
                     /\ department_approver_id r' = department_approver_id r)
      /\ request_approvals (fst (approve_request db u rid "approve" com)) =
         (request_approvals db ++
          [mkRequestApproval (next_id ra_id (request_approvals db)) rid (user_id u)
                             "admin" "approve" com])%list
      /\ filter (fun f => negb (admin_flow rid f))
                (workflow_flow_display (fst (approve_request db u rid "approve" com))) =
         filter (fun f => negb (admin_flow rid f)) (workflow_flow_display db))
  /\ (forall (db : Db) (s u : User) (m : Py.str) (d p com : string)
             (da : DepartmentApprover),
         Py.strip m <> [] -> d <> EmptyString ->
         active_approver db d = Some da ->
         role u = "admin" ->
         exists r',
           get_request
             (fst (approve_request (fst (create_request db s m d p)) u
                     (next_id request_id (requests db)) "approve" com))
             (next_id request_id (requests db)) = Some r'
           /\ status r' = "admin_approved"
           /\ admin_approver_id r' = Some (user_id u)
           /\ department_approver_id r' = Some (da_approver_id da)).
Proof.
  assert (H1 : forall (db : Db) (u : User) (rid : Z) (com : string) (r : Request),
      get_request db rid = Some r ->
      role u = "admin" ->
      snd (approve_request db u rid "approve" com) =
        ok (Approved "Request approved successfully" "admin_approved")
      /\ (exists r', get_request (fst (approve_request db u rid "approve" com)) rid = Some r'
                     /\ status r' = "admin_approved"
                     /\ admin_approver_id r' = Some (user_id u)
                     /\ department_approver_id r' = department_approver_id r)
      /\ request_approvals (fst (approve_request db u rid "approve" com)) =
         (request_approvals db ++
          [mkRequestApproval (next_id ra_id (request_approvals db)) rid (user_id u)
                             "admin" "approve" com])%list
      /\ filter (fun f => negb (admin_flow rid f))
                (workflow_flow_display (fst (approve_request db u rid "approve" com))) =
         filter (fun f => negb (admin_flow rid f)) (workflow_flow_display db)).
  { intros db u rid com r Hr Hu.
    assert (Hl : approval_level_for db u r = Some "admin").
    { unfold approval_level_for. rewrite Hu. reflexivity. }
    destruct (approve_request_rows db u rid "approve" com r "admin" Hr Hl) as [Hrows Hresp].
    split; [exact Hresp|]. split; [|split; [exact Hrows|]].
    - unfold approve_request. rewrite Hr, Hl. simpl.
      unfold get_request in *. simpl.
      rewrite first_update_first.
      + rewrite Hr. simpl. eexists. split; [reflexivity|]. repeat split.
      + intros x Hx. exact Hx.
    - unfold approve_request. rewrite Hr, Hl. simpl.
      apply filter_update_first.
      + intros x Hx. rewrite Hx. reflexivity.
      + intros x Hx. rewrite admin_flow_set_status, Hx. reflexivity. }
  split; [exact H1|].
  intros db s u m d p com da Hm Hd Ha Hu.
  destruct (create_request_resolves db s m d p da Hm Hd Ha) as [r [Hr [_ [Hdep _]]]].
  destruct (H1 _ u _ com r Hr Hu) as [_ [[r' [Hr' [Hs [Hadm Hkeep]]]] _]].
  exists r'. split; [exact Hr'|]. split; [exact Hs|]. split; [exact Hadm|].
  rewrite Hkeep. exact Hdep.
Qed.

Lemma C9_admin_approves_directly_witness :
  snd (approve_request db_created admin 1 "approve" "fast track") =
    ok (Approved "Request approved successfully" "admin_approved")
  /\ exists r',
       get_request (fst (approve_request db_created admin 1 "approve" "fast track")) 1
       = Some r'
       /\ department_approver_id r' = Some 3.
Proof.
  split.
  - refine (proj1 (proj1 C9_admin_approves_directly db_created admin 1 "fast track"
                     (mkRequest 1 (Py.text "Request: Need a new laptop") laptop "IT"
                                "pending" "normal" 5 (Some 3) None) _ _)).
    + vm_compute. reflexivity.
    + reflexivity.
  - destruct (proj2 C9_admin_approves_directly seed user1 admin laptop "IT" "normal"
                "fast track" (mkDepartmentApprover 1 "IT" 3 true))
      as [r' [H1 [_ [_ H2]]]].
    + vm_compute. discriminate.
    + discriminate.
    + vm_compute. reflexivity.
    + reflexivity.
    + exists r'. split; [exact H1 | exact H2].
Defined.

(** C9 fails as stated: request 1 is pending, nobody has acted at the
    department stage, and the admin's approval leaves a request whose
    department_approver is user 3, the approver [create_request] wrote. *)
Lemma C9_counterexample :
  request_status db_created 1 = Some "pending"
  /\ filter (fun a => (ra_request_id a =? 1) && (approval_level a =? "department")%string
                      && negb (action a =? "pending")%string)
            (request_approvals db_created) = []
  /\ snd (approve_request db_created admin 1 "approve" "fast track") =
     ok (Approved "Request approved successfully" "admin_approved")
  /\ option_map department_approver_id
       (get_request (fst (approve_request db_created admin 1 "approve" "fast track")) 1)
     = Some (Some 3)
  /\ option_map department_approver_id
       (get_request (fst (approve_request db_created admin 1 "approve" "fast track")) 1)
     <> Some None.
Proof. repeat split; vm_compute; solve [reflexivity | discriminate]. Qed.

(** C10. Where the code departs from it: [delete_request] deletes the
    approvals of the request and then the request, but not its flow display
    rows; the mapper detaches them, their NOT NULL request_id refuses, and
    the handler answers 500 with nothing deleted. So an admin cannot delete
    a request that has a flow display row, and every request made by
    [create_request] has one. Only a request without flow rows goes, with
    its approvals. *)
Theorem C10_delete_request_fails_on_flow_rows :
  (forall (db : Db) (u : User) (rid : Z) (r : Request) (f : WorkflowFlowDisplay),
      role u = "admin" -> get_request db rid = Some r ->
      In f (workflow_flow_display db) -> wfd_request_id f = rid ->
      delete_request db u rid =
      (db, failed "Failed to delete request: "
                  (IntegrityError "workflow_flow_display.request_id NOT NULL")))
  /\ (forall (db : Db) (s u : User) (m : Py.str) (d p : string) (da : DepartmentApprover),
         Py.strip m <> [] -> d <> EmptyString ->
         active_approver db d = Some da ->
         role u = "admin" ->
         delete_request (fst (create_request db s m d p)) u
                        (next_id request_id (requests db)) =
         (fst (create_request db s m d p),
          failed "Failed to delete request: "
                 (IntegrityError "workflow_flow_display.request_id NOT NULL")))
  /\ (forall (db : Db) (u : User) (rid : Z) (r : Request),
         role u = "admin" -> get_request db rid = Some r ->
         workflow_flow db rid = [] ->
         snd (delete_request db u rid) = ok (Done "Request deleted successfully")
         /\ get_request (fst (delete_request db u rid)) rid = None
         /\ (forall a, In a (request_approvals (fst (delete_request db u rid))) <->
                       In a (request_approvals db) /\ ra_request_id a <> rid)
         /\ (forall x, In x (requests (fst (delete_request db u rid))) <->
                       In x (requests db) /\ request_id x <> rid)
         /\ workflow_flow_display (fst (delete_request db u rid)) =
            workflow_flow_display db).
Proof.
  assert (H1 : forall (db : Db) (u : User) (rid : Z) (r : Request)
                      (f : WorkflowFlowDisplay),
      role u = "admin" -> get_request db rid = Some r ->
      In f (workflow_flow_display db) -> wfd_request_id f = rid ->
      delete_request db u rid =
      (db, failed "Failed to delete request: "
                  (IntegrityError "workflow_flow_display.request_id NOT NULL"))).
  { intros db u rid r f Hu Hr Hin Hf. unfold delete_request. rewrite Hu, Hr. cbn [negb].
    change (workflow_flow (with_request_approvals db
                             (delete (fun a => ra_request_id a =? rid)
                                     (request_approvals db))) rid)
      with (workflow_flow db rid).
    destruct (workflow_flow db rid) as [|x l] eqn:E; [|reflexivity].
    exfalso. assert (Hx : In f (workflow_flow db rid)).
    { unfold workflow_flow. apply filter_In. split; [exact Hin|].
      apply Z.eqb_eq. exact Hf. }
    rewrite E in Hx. exact Hx. }
  split; [exact H1|]. split.
  - intros db s u m d p da Hm Hd Ha Hu.
    destruct (create_request_resolves db s m d p da Hm Hd Ha) as [r [Hr _]].
    destruct (create_request_flows db s m d p da Hm Hd Ha) as [rest Hrest].
    apply (H1 _ u _ r
             (mkWorkflowFlowDisplay (next_id wfd_id (workflow_flow_display db))
                (next_id request_id (requests db)) 0 "User (Submitter)" (user_id s)
                (username s) "user" (user_department s) "completed") Hu Hr).
    + rewrite Hrest. apply in_or_app. right. left. reflexivity.
    + reflexivity.
  - intros db u rid r Hu Hr Hflow. unfold delete_request. rewrite Hu, Hr. cbn [negb].
    change (workflow_flow (with_request_approvals db
                             (delete (fun a => ra_request_id a =? rid)
                                     (request_approvals db))) rid)
      with (workflow_flow db rid).
    rewrite Hflow. cbn [fst snd].
    split; [reflexivity|]. split; [|split; [|split]].
    + unfold get_request. cbn [requests with_requests with_request_approvals].
      apply first_delete_same.
    + intros a.
      change (In a (delete (fun a => ra_request_id a =? rid) (request_approvals db))
              <-> In a (request_approvals db) /\ ra_request_id a <> rid).
      unfold delete. rewrite filter_In, Bool.negb_true_iff, Z.eqb_neq. tauto.
    + intros x.
      change (In x (delete (fun r => request_id r =? rid) (requests db))
              <-> In x (requests db) /\ request_id x <> rid).
      unfold delete. rewrite filter_In, Bool.negb_true_iff, Z.eqb_neq. tauto.
    + reflexivity.
Qed.

Lemma C10_delete_request_witness :
  delete_request db_created admin 1 =
  (db_created, failed "Failed to delete request: "
                      (IntegrityError "workflow_flow_display.request_id NOT NULL")).
Proof.
  apply (proj1 (proj2 C10_delete_request_fails_on_flow_rows) seed user1 admin laptop
               "IT" "normal" (mkDepartmentApprover 1 "IT" 3 true)).
  - vm_compute. discriminate.
  - discriminate.
  - vm_compute. reflexivity.
  - reflexivity.
Defined.

(** * Further properties of the handlers *)

(** ** More facts about the store primitives *)

Section MoreStoreFacts.
Context {A : Type}.
Variables (p q : A -> bool) (f : A -> A).

Lemma update_first_id (l : list A) :
  (forall x, f x = x) -> update_first p f l = l.
Proof.
  intros Hf. induction l as [|x l IH]; simpl; [reflexivity|].
  destruct (p x); [rewrite Hf | rewrite IH]; reflexivity.
Qed.

Lemma first_none_count (l : list A) : first p l = None <-> count p l = 0.
Proof.
  unfold first, count. induction l as [|x l IH]; simpl; [tauto|].
  destruct (p x); simpl List.length.
  - split; [discriminate | lia].
  - exact IH.
Qed.

Lemma count_nonneg (l : list A) : 0 <= count p l.
Proof. unfold count. lia. Qed.

Lemma count_app (l l' : list A) : count p (l ++ l') = count p l + count p l'.
Proof. unfold count. rewrite filter_app, length_app. lia. Qed.

(** Rewriting the row a query finds changes a count by what that row
    contributed before and after. *)
Lemma count_update_first_found (l : list A) (a : A) :
  first p l = Some a ->
  count q (update_first p f l) =
  count q l - (if q a then 1 else 0) + (if q (f a) then 1 else 0).
Proof.
  unfold first, count. induction l as [|x l IH]; simpl; [discriminate|].
  destruct (p x) eqn:E.
  - intros [= ->]. simpl. destruct (q a), (q (f a)); simpl List.length; lia.
  - intros H. specialize (IH H). simpl. destruct (q x); simpl List.length; lia.
Qed.

(** A rewrite that never turns an uncounted row into a counted one cannot
    raise a count. *)
Lemma count_update_first_le (l : list A) :
  (forall x, q (f x) = true -> q x = true) ->
  count q (update_first p f l) <= count q l.
Proof.
  intros Hq. unfold count. induction l as [|x l IH]; simpl; [lia|].
  destruct (p x); simpl.
  - destruct (q (f x)) eqn:E; [rewrite (Hq x E); simpl List.length; lia|].
    destruct (q x); simpl List.length; lia.
  - destruct (q x); simpl List.length; lia.
Qed.

Lemma map_update_first {B : Type} (g : A -> B) (l : list A) :
  (forall x, g (f x) = g x) -> map g (update_first p f l) = map g l.
Proof.
  intros Hg. induction l as [|x l IH]; simpl; [reflexivity|].
  destruct (p x); simpl; [rewrite Hg | rewrite IH]; reflexivity.
Qed.
End MoreStoreFacts.

(** ** create_request: what is stored *)






(** The title expression of [create_request]. *)
Lemma request_title_shape (s : Py.str) :
  let t := (Py.text "Request: " ++ Py.take 50 s
              ++ (if (50 <? Py.len s)%nat then Py.text "..." else []))%list in
  (Py.len t <= 62)%nat
  /\ ((Py.len s <= 50)%nat -> t = (Py.text "Request: " ++ s)%list)
  /\ ((50 < Py.len s)%nat ->
      t = (Py.text "Request: " ++ Py.take 50 s ++ Py.text "...")%list
      /\ Py.len t = 62%nat).
Proof.
  intros t. subst t. unfold Py.take, Py.len.
  pose proof (firstn_le_length 50 s) as Hsub.
  assert (H9 : List.length (Py.text "Request: ") = 9%nat) by reflexivity.
  assert (H3 : List.length (Py.text "...") = 3%nat) by reflexivity.
  split; [|split].
  - rewrite !length_app, H9.
    destruct (50 <? List.length s)%nat; [rewrite H3 | cbn [List.length]]; lia.
  - intros Hle. assert (Hb : (50 <? List.length s)%nat = false)
      by (apply Nat.ltb_ge; exact Hle).
    rewrite Hb, (firstn_all2 s Hle), app_nil_r. reflexivity.
  - intros Hlt. assert (Hb : (50 <? List.length s)%nat = true)
      by (apply Nat.ltb_lt; exact Hlt).
    rewrite Hb. split; [reflexivity|].
    rewrite !length_app, H9, H3, length_firstn. lia.
Qed.

(** X2. The title [create_request] stores is "Request: " followed by the
    stripped message when that has at most 50 characters (code points), and
    by its first 50 characters and "..." otherwise; it is never longer than
    62 characters. *)
Theorem create_request_title_bounded :
  forall (db : Db) (u : User) (m : Py.str) (d p : string) (da : DepartmentApprover),
    Py.strip m <> [] -> d <> EmptyString ->
    active_approver db d = Some da ->
    exists r,
      Store.get_request (fst (create_request db u m d p))
                        (next_id request_id (requests db)) = Some r
      /\ (Py.len (title r) <= 62)%nat
      /\ ((Py.len (Py.strip m) <= 50)%nat ->
          title r = (Py.text "Request: " ++ Py.strip m)%list)
      /\ ((50 < Py.len (Py.strip m))%nat ->
          title r = (Py.text "Request: " ++ firstn 50 (Py.strip m) ++ Py.text "...")%list
          /\ Py.len (title r) = 62%nat).
Proof.
  intros db u m d p da Hm Hd Ha.
  pose proof (next_id_unused request_id (requests db)) as Hfresh.
  unfold Store.get_request. rewrite (create_request_stores db u m d p da Hm Hd Ha).
  rewrite first_app, Hfresh. unfold first. cbn [find request_id]. rewrite Z.eqb_refl.
  eexists. split; [reflexivity|].
  exact (request_title_shape (Py.strip m)).
Qed.

(** A message of 51 characters, the Japanese full stop U+3002 fifty-one
    times: three bytes each in UTF-8, one character each for the slice. *)
Lemma create_request_title_bounded_witness :
  exists r,
    Store.get_request
      (fst (create_request seed user1 (repeat 12290%N 51) "IT" "normal"))
      (next_id request_id (requests seed)) = Some r
    /\ title r = (Py.text "Request: " ++ repeat 12290%N 50 ++ Py.text "...")%list.
Proof.
  destruct (create_request_title_bounded seed user1 (repeat 12290%N 51) "IT" "normal"
              (mkDepartmentApprover 1 "IT" 3 true)) as [r [H1 [_ [_ H2]]]].
  - vm_compute. discriminate.
  - discriminate.
  - vm_compute. reflexivity.
  - exists r. split; [exact H1|]. destruct H2 as [H2 _].
    + vm_compute. lia.
    + rewrite H2. vm_compute. reflexivity.
Defined.

(** ** approve_request: edge behaviour *)

Lemma apply_action_other (u : User) (level act : string) (r : Request) :
  act <> "approve" -> act <> "reject" -> apply_action u level act r = r.
Proof.
  intros H1 H2. unfold apply_action.
  apply String.eqb_neq in H1. apply String.eqb_neq in H2. rewrite H1, H2. reflexivity.
Qed.

Lemma apply_flow_other (rid : Z) (level act : string) (db : Db) :
  act <> "approve" -> act <> "reject" -> apply_flow rid level act db = db.
Proof.
  intros H1 H2. unfold apply_flow.
  apply String.eqb_neq in H1. apply String.eqb_neq in H2. rewrite H1, H2. reflexivity.
Qed.

(** X3. An action that is neither "approve" nor "reject" (a "comment",
    say) from an actor the stage admits is answered as a success and one
    approval row is appended for it, but the request row, its status
    included, and the flow display stay as they were. *)
Theorem approve_request_unknown_action_is_only_logged :
  forall (db : Db) (u : User) (rid : Z) (act com : string) (r : Request) (level : string),
    Store.get_request db rid = Some r ->
    approval_level_for db u r = Some level ->
    act <> "approve" -> act <> "reject" ->
    snd (approve_request db u rid act com) =
      ok (Approved ("Request " ++ act ++ "d successfully")%string (status r))
    /\ requests (fst (approve_request db u rid act com)) = requests db
    /\ workflow_flow_display (fst (approve_request db u rid act com)) =
       workflow_flow_display db
    /\ request_approvals (fst (approve_request db u rid act com)) =
       (request_approvals db ++
        [mkRequestApproval (next_id ra_id (request_approvals db)) rid (user_id u)
                           level act com])%list.
Proof.
  intros db u rid act com r level Hr Hl H1 H2.
  unfold approve_request. rewrite Hr, Hl.
  rewrite (apply_flow_other _ _ _ _ H1 H2), (apply_action_other u level act r H1 H2).
  cbn [fst snd]. split; [reflexivity|]. unfold update_request. cbn.
  rewrite update_first_id; [repeat split|].
  intros x. apply apply_action_other; assumption.
Qed.

Lemma approve_request_unknown_action_witness :
  snd (approve_request db_created general 1 "comment" "looking into it") =
  ok (Approved "Request commentd successfully" "pending")
  /\ requests (fst (approve_request db_created general 1 "comment" "looking into it")) =
     requests db_created.
Proof.
  destruct (approve_request_unknown_action_is_only_logged db_created general 1
              "comment" "looking into it"
              (mkRequest 1 (Py.text "Request: Need a new laptop") laptop "IT"
                         "pending" "normal" 5 (Some 3) None) "general")
    as [H1 [H2 _]].
  - vm_compute. reflexivity.
  - vm_compute. reflexivity.
  - discriminate.
  - discriminate.
  - split; [exact H1 | exact H2].
Defined.

(** What the authorisation check tells about a non-admin it lets through. *)
Lemma level_of_non_admin (db : Db) (u : User) (r : Request) (level : string) :
  role u <> "admin" ->
  approval_level_for db u r = Some level ->
  (username u = "general_approver" /\ status r = "pending" /\ level = "general")
  \/ (username u <> "general_approver" /\ status r = "general_approved"
      /\ level = "department").
Proof.
  intros Hu. unfold approval_level_for. rewrite (not_admin_test u Hu).
  destruct (username u =? "general_approver")%string eqn:Eg.
  - apply String.eqb_eq in Eg.
    destruct (status r =? "pending")%string eqn:Es; [|discriminate].
    apply String.eqb_eq in Es. intros [= <-]. auto.
  - apply String.eqb_neq in Eg.
    destruct (first _ _); [|discriminate].
    destruct (status r =? "general_approved")%string eqn:Es; [|discriminate].
    apply String.eqb_eq in Es. intros [= <-]. auto.
Qed.

Lemma approve_request_store (db : Db) (u : User) (rid : Z) (act com : string)
    (r : Request) (level : string) :
  Store.get_request db rid = Some r ->
  approval_level_for db u r = Some level ->
  fst (approve_request db u rid act com) =
  apply_flow rid level act
    (update_request rid (apply_action u level act)
       (add_request_approval db rid (user_id u) level act com)).
Proof. intros Hr Hl. unfold approve_request. rewrite Hr, Hl. reflexivity. Qed.

Lemma apply_flow_department_approvers (rid : Z) (level act : string) (db : Db) :
  department_approvers (apply_flow rid level act db) = department_approvers db.
Proof. unfold apply_flow. str_cases; reflexivity. Qed.

Lemma length_update_first_eq {A : Type} (p : A -> bool) (f : A -> A) (l : list A) :
  List.length (update_first p f l) = List.length l.
Proof.
  induction l as [|x l IH]; simpl; [reflexivity|].
  destruct (p x); simpl; congruence.
Qed.

(** [apply_flow] rewrites at most the status of flow display rows. *)
Lemma apply_flow_frame (rid : Z) (level act : string) (db : Db) :
  users (apply_flow rid level act db) = users db
  /\ department_approvers (apply_flow rid level act db) = department_approvers db
  /\ documents (apply_flow rid level act db) = documents db
  /\ workflow_steps (apply_flow rid level act db) = workflow_steps db
  /\ approvals (apply_flow rid level act db) = approvals db
  /\ List.length (workflow_flow_display (apply_flow rid level act db)) =
     List.length (workflow_flow_display db).
Proof.
  unfold apply_flow, mark_flow.
  destruct (act =? "approve")%string; [|destruct (act =? "reject")%string];
    try (destruct (level =? "general")%string;
         [|destruct (level =? "department")%string;
           [|destruct (level =? "admin")%string]]);
    cbn; repeat split; try apply length_update_first_eq.
Qed.

(** X5. [approve_request] changes the store only when it answers success,
    and then only three tables: it never touches the users, the approver
    mappings or the document tables, it keeps the number of request and
    flow display rows, and it leaves every other request as it was. *)
Theorem approve_request_frame :
  forall (db : Db) (u : User) (rid : Z) (act com : string),
    ((forall b, snd (approve_request db u rid act com) <> ok b) ->
     fst (approve_request db u rid act com) = db)
    /\ users (fst (approve_request db u rid act com)) = users db
    /\ department_approvers (fst (approve_request db u rid act com)) =
       department_approvers db
    /\ documents (fst (approve_request db u rid act com)) = documents db
    /\ workflow_steps (fst (approve_request db u rid act com)) = workflow_steps db
    /\ approvals (fst (approve_request db u rid act com)) = approvals db
    /\ List.length (requests (fst (approve_request db u rid act com))) =
       List.length (requests db)
    /\ List.length (workflow_flow_display (fst (approve_request db u rid act com))) =
       List.length (workflow_flow_display db)
    /\ (forall rid', rid' <> rid ->
        Store.get_request (fst (approve_request db u rid act com)) rid' =
        Store.get_request db rid').
Proof.
  intros db u rid act com. unfold approve_request.
  destruct (Store.get_request db rid) as [r|] eqn:Hr;
    [|cbn [fst snd]; repeat split; reflexivity].
  destruct (approval_level_for db u r) as [level|] eqn:Hl;
    [|cbn [fst snd]; repeat split; reflexivity].
  cbn [fst snd]. split; [intros H; exfalso; eapply H; reflexivity|].
  destruct (apply_flow_frame rid level act
              (update_request rid (apply_action u level act)
                 (add_request_approval db rid (user_id u) level act com)))
    as [F1 [F2 [F3 [F4 [F5 F6]]]]].
  rewrite F1, F2, F3, F4, F5, F6, apply_flow_requests. cbn.
  repeat split.
  - induction (requests db) as [|x l IH]; simpl; [reflexivity|].
    destruct (request_id x =? rid); simpl; congruence.
  - intros rid' Hne. unfold Store.get_request. rewrite apply_flow_requests. cbn.
    apply first_update_other.
    + intros x Hx. apply Z.eqb_eq in Hx. apply Z.eqb_neq. congruence.
    + intros x Hx. rewrite apply_action_request_id.
      apply Z.eqb_eq in Hx. apply Z.eqb_neq. congruence.
Qed.

Lemma approve_request_frame_witness :
  fst (approve_request db_created user1 1 "approve" "please") = db_created.
Proof.
  apply (proj1 (approve_request_frame db_created user1 1 "approve" "please")).
  intros b. vm_compute. discriminate.
Defined.

(** ** The approver registry along any sequence of calls *)

Lemma add_step_approvals_frame (steps : list StepData) :
  forall (db : Db) (rid : Z),
    users (add_step_approvals db rid steps) = users db
    /\ department_approvers (add_step_approvals db rid steps) = department_approvers db
    /\ requests (add_step_approvals db rid steps) = requests db
    /\ workflow_flow_display (add_step_approvals db rid steps) = workflow_flow_display db
    /\ documents (add_step_approvals db rid steps) = documents db
    /\ workflow_steps (add_step_approvals db rid steps) = workflow_steps db
    /\ approvals (add_step_approvals db rid steps) = approvals db.
Proof.
  induction steps as [|s steps IH]; intros db rid; [repeat split|].
  cbn [add_step_approvals].
  destruct (step_approval db s) as [[approver level]|]; [|apply IH].
  match goal with
  | |- context [add_step_approvals ?d rid steps] =>
      destruct (IH d rid) as [H1 [H2 [H3 [H4 [H5 [H6 H7]]]]]]
  end.
  rewrite H1, H2, H3, H4, H5, H6, H7. repeat split.
Qed.

Lemma add_step_flows_frame (steps : list StepData) :
  forall (db : Db) (rid : Z),
    users (add_step_flows db rid steps) = users db
    /\ department_approvers (add_step_flows db rid steps) = department_approvers db
    /\ requests (add_step_flows db rid steps) = requests db
    /\ request_approvals (add_step_flows db rid steps) = request_approvals db
    /\ documents (add_step_flows db rid steps) = documents db
    /\ workflow_steps (add_step_flows db rid steps) = workflow_steps db
    /\ approvals (add_step_flows db rid steps) = approvals db.
Proof.
  induction steps as [|s steps IH]; intros db rid; [repeat split|].
  cbn [add_step_flows].
  match goal with
  | |- context [add_step_flows ?d rid steps] =>
      destruct (IH d rid) as [H1 [H2 [H3 [H4 [H5 [H6 H7]]]]]];
      assert (Hd : users d = users db
                   /\ department_approvers d = department_approvers db
                   /\ requests d = requests db
                   /\ request_approvals d = request_approvals db
                   /\ documents d = documents db
                   /\ workflow_steps d = workflow_steps db
                   /\ approvals d = approvals db)
  end.
  { destruct (sd_department s =? "General Approver")%string;
      [destruct (general_approver db); repeat split|].
    destruct (sd_department s =? "Admin")%string;
      [destruct (admin_approver db); repeat split|].
    destruct (active_approver db (sd_department s)) as [m|]; [|repeat split].
    destruct (get_user db (da_approver_id m)); repeat split. }
  destruct Hd as [D1 [D2 [D3 [D4 [D5 [D6 D7]]]]]].
  rewrite H1, H2, H3, H4, H5, H6, H7. repeat split; assumption.
Qed.

Lemma create_workflow_request_mappings (db : Db) (u : User) (t m : Py.str) (p : string)
    (steps : list StepData) :
  department_approvers (fst (create_workflow_request db u t m p steps)) =
  department_approvers db.
Proof.
  unfold create_workflow_request.
  destruct (Py.empty (Py.strip t) || Py.empty (Py.strip m)); [reflexivity|].
  destruct steps as [|s0 steps0]; [reflexivity|].
  destruct (actual_department_of (s0 :: steps0)) as [d|]; [|reflexivity].
  destruct (Py.falsy d); [reflexivity|].
  destruct (active_approver db d) as [da|]; [|reflexivity].
  cbv zeta.
  match goal with
  | |- department_approvers (fst (match ?x with Some _ => (?d1, _) | None => (?d2, _) end)) = _ =>
      assert (E : department_approvers d1 = department_approvers db);
      [|destruct x; exact E]
  end.
  destruct (add_step_flows_frame (s0 :: steps0)
              (add_flow
                 (add_step_approvals
                    (with_requests db
                       (requests db ++
                        [mkRequest (next_id request_id (requests db)) (Py.strip t)
                           (Py.strip m) d "pending" p (user_id u)
                           (Some (da_approver_id da)) None]))
                    (next_id request_id (requests db)) (s0 :: steps0))
                 (next_id request_id (requests db)) 0 "User (Submitter)" (user_id u)
                 (username u) "user" (user_department u) "completed")
              (next_id request_id (requests db))) as [_ [H2 _]].
  rewrite H2. cbn [department_approvers add_flow with_workflow_flow_display].
  destruct (add_step_approvals_frame (s0 :: steps0)
              (with_requests db
                 (requests db ++
                  [mkRequest (next_id request_id (requests db)) (Py.strip t)
                     (Py.strip m) d "pending" p (user_id u)
                     (Some (da_approver_id da)) None]))
              (next_id request_id (requests db))) as [_ [G2 _]].
  rewrite G2. reflexivity.
Qed.

Lemma create_request_mappings (db : Db) (u : User) (m : Py.str) (d p : string) :
  department_approvers (fst (create_request db u m d p)) = department_approvers db.
Proof.
  unfold create_request.
  destruct (Py.empty (Py.strip m) || Py.falsy d); [reflexivity|].
  destruct (active_approver db d) as [a|]; [|reflexivity].
  repeat match goal with
         | |- context [match ?x with Some _ => _ | None => _ end] => destruct x
         end; reflexivity.
Qed.

Lemma approve_request_mappings (db : Db) (u : User) (rid : Z) (act com : string) :
  department_approvers (fst (approve_request db u rid act com)) = department_approvers db.
Proof.
  unfold approve_request.
  destruct (Store.get_request db rid) as [r|]; [|reflexivity].
  destruct (approval_level_for db u r) as [level|]; [|reflexivity].
  cbn [fst]. rewrite apply_flow_department_approvers. reflexivity.
Qed.

Lemma new_document_mappings (db : Db) (u : User) (t : string) :
  department_approvers (fst (new_document db u t)) = department_approvers db.
Proof.
  unfold new_document. cbn [fst].
  assert (H : forall l d doc i,
             department_approvers (add_approver_steps d doc i l) = department_approvers d).
  { induction l as [|x l IH]; intros d doc i; simpl; [reflexivity|]. rewrite IH. reflexivity. }
  destruct (admin_approver _); cbn; rewrite H; reflexivity.
Qed.

(** What one call can do to the mapping table: nothing, append an active
    mapping for a department that has none, or clear the flag of one row. *)
Lemma perform_mappings (db : Db) (c : call) :
  department_approvers (perform db c) = department_approvers db
  \/ (exists d a,
        active_approver db d = None
        /\ department_approvers (perform db c) =
           (department_approvers db ++
            [mkDepartmentApprover (next_id da_id (department_approvers db)) d a true])%list)
  \/ (exists i,
        department_approvers (perform db c) =
        update_first (fun x => da_id x =? i) (set_is_active false)
                     (department_approvers db)).
Proof.
  destruct c as [o|u rid|u t m p steps|u t|u doc]; simpl.
  - destruct o as [u m d p|u rid act com|u d a|u a|u doc act com]; simpl.
    + left. apply create_request_mappings.
    + left. apply approve_request_mappings.
    + unfold create_department_approver.
      destruct (negb _); [left; reflexivity|].
      destruct (Py.falsy d || (a =? 0)); [left; reflexivity|].
      destruct (get_user db a); [|left; reflexivity].
      destruct (active_approver db d) eqn:Ha; [left; reflexivity|].
      destruct (unique_department_approver db d a); [|left; reflexivity].
      right. left. exists d, a. split; [exact Ha | reflexivity].
    + unfold delete_department_approver.
      destruct (negb _); [left; reflexivity|].
      destruct (get_department_approver db a); [|left; reflexivity].
      right. right. exists a. reflexivity.
    + left. unfold approve_document.
      destruct (negb _); [reflexivity|].
      destruct (first _ _); [|reflexivity].
      destruct (_ =? 0); [|reflexivity].
      destruct (get_document _ _); reflexivity.
  - left. destruct (delete_request_cases db u rid) as [[E _]|[_ [_ E]]];
      rewrite E; reflexivity.
  - left. apply create_workflow_request_mappings.
  - left. apply new_document_mappings.
  - left. unfold archive_document. destruct (negb _); [reflexivity|].
    destruct (get_document db doc); reflexivity.
Qed.

Lemma perform_keeps_one_active (db : Db) (c : call) :
  one_active_per_department db -> one_active_per_department (perform db c).
Proof.
  intros Hinv d'. unfold active_count.
  destruct (perform_mappings db c) as [E|[[d [a [Hnone E]]]|[i E]]]; rewrite E.
  - apply Hinv.
  - rewrite count_app. unfold count at 2. cbn [filter da_department is_active].
    rewrite Bool.andb_true_r.
    destruct (d =? d')%string eqn:Ed.
    + apply String.eqb_eq in Ed. subst d'.
      unfold active_approver in Hnone. apply first_none_count in Hnone.
      rewrite Hnone. simpl. lia.
    + simpl. specialize (Hinv d'). unfold active_count in Hinv. lia.
  - etransitivity; [apply count_update_first_le | apply Hinv].
    intros x. cbn. rewrite Bool.andb_false_r. discriminate.
Qed.

(** X6. At most one active approver per department is an invariant of the
    handlers: if it holds of a store, it holds after any sequence of calls
    to create_request, create_workflow_request, approve_request,
    delete_request, create_department_approver, delete_department_approver,
    new_document, approve_document and archive_document. *)
Theorem one_active_approver_is_kept :
  forall (cs : list call) (db : Db),
    one_active_per_department db ->
    one_active_per_department (perform_all db cs).
Proof.
  induction cs as [|c cs IH]; intros db Hinv; [exact Hinv|].
  simpl. apply IH. apply perform_keeps_one_active. exact Hinv.
Qed.

Lemma one_active_approver_is_kept_witness :
  one_active_per_department
    (perform_all seed
       [Kept (OpCreateApprover admin "HR" 4);
        Kept (OpCreateApprover admin "IT" 4);
        Kept (OpDeleteApprover admin 1);
        Kept (OpCreateApprover admin "IT" 4)]).
Proof.
  apply one_active_approver_is_kept.
  intros d. unfold active_count, count, seed.
  cbn [department_approvers filter da_department is_active].
  rewrite Bool.andb_true_r.
  destruct ("IT" =? d)%string; cbn [List.length Z.of_nat]; lia.
Defined.

(** X7. Mappings are never erased or rewritten: along any sequence of calls
    the key, department and approver of every mapping row stay in place, in
    order; rows are only appended, and only the active flag of a row ever
    changes. *)
Theorem mapping_history_is_kept :
  forall (cs : list call) (db : Db),
    exists later,
      map mapping_of (department_approvers (perform_all db cs)) =
      (map mapping_of (department_approvers db) ++ later)%list.
Proof.
  induction cs as [|c cs IH]; intros db.
  - exists []. simpl. rewrite app_nil_r. reflexivity.
  - simpl. destruct (IH (perform db c)) as [later Hl]. rewrite Hl.
    destruct (perform_mappings db c) as [E|[[d [a [_ E]]]|[i E]]]; rewrite E.
    + exists later. reflexivity.
    + rewrite map_app, <- app_assoc. eexists. reflexivity.
    + rewrite map_update_first; [|reflexivity]. exists later. reflexivity.
Qed.

(** ** No second turn *)

Lemma first_delete_other {A : Type} (p q : A -> bool) (l : list A) :
  (forall x, q x = true -> p x = false) ->
  first q (delete p l) = first q l.
Proof.
  intros Hqp. unfold first, delete. induction l as [|x l IH]; cbn [filter find]; [reflexivity|].
  destruct (q x) eqn:Eq.
  - rewrite (Hqp x Eq). cbn [negb find]. rewrite Eq. reflexivity.
  - destruct (p x); cbn [negb find]; [exact IH|]. rewrite Eq. exact IH.
Qed.

Lemma create_workflow_request_requests (db : Db) (u : User) (t m : Py.str) (p : string)
    (steps : list StepData) :
  exists extra,
    requests (fst (create_workflow_request db u t m p steps)) = (requests db ++ extra)%list.
Proof.
  assert (Hsame : exists extra, requests db = (requests db ++ extra)%list)
    by (exists []; rewrite app_nil_r; reflexivity).
  unfold create_workflow_request.
  destruct (Py.empty (Py.strip t) || Py.empty (Py.strip m)); [exact Hsame|].
  destruct steps as [|s0 steps0]; [exact Hsame|].
  destruct (actual_department_of (s0 :: steps0)) as [d|]; [|exact Hsame].
  destruct (Py.falsy d); [exact Hsame|].
  destruct (active_approver db d) as [da|]; [|exact Hsame].
  cbv zeta.
  match goal with
  | |- exists extra,
         requests (fst (match ?x with Some _ => (?d1, _) | None => (?d2, _) end)) = _ =>
      assert (E : exists extra, requests d1 = (requests db ++ extra)%list);
      [|destruct x; exact E]
  end.
  match goal with
  | |- exists extra, requests (add_step_flows ?d0 ?r ?l) = _ =>
      destruct (add_step_flows_frame l d0 r) as [_ [_ [H3 _]]]; rewrite H3
  end.
  cbn [requests add_flow with_workflow_flow_display].
  match goal with
  | |- exists extra, requests (add_step_approvals ?d0 ?r ?l) = _ =>
      destruct (add_step_approvals_frame l d0 r) as [_ [_ [G3 _]]]; rewrite G3
  end.
  eexists. reflexivity.
Qed.

Lemma new_document_requests (db : Db) (u : User) (t : string) :
  requests (fst (new_document db u t)) = requests db.
Proof.
  unfold new_document. cbn [fst].
  assert (H : forall l d doc i, requests (add_approver_steps d doc i l) = requests d).
  { induction l as [|x l IH]; intros d doc i; simpl; [reflexivity|]. rewrite IH. reflexivity. }
  destruct (admin_approver _); cbn; rewrite H; reflexivity.
Qed.

(** Whatever [approve_request] writes keeps a passed stage passed. *)
Lemma apply_action_keeps_passed (db : Db) (u : User) (level0 act level : string)
    (r : Request) :
  approval_level_for db u r = Some level0 ->
  passed level (status r) = true ->
  passed level (status (apply_action u level0 act r)) = true.
Proof.
  unfold approval_level_for, passed. intros Hl Hp.
  apply Bool.andb_true_iff in Hp. destruct Hp as [Hpend Hgen].
  apply Bool.negb_true_iff in Hpend.
  assert (Hterm : forall s, s = "admin_approved" \/ s = "department_approved"
                            \/ s = "rejected" ->
            negb (s =? "pending")%string
            && ((level =? "general")%string || negb (s =? "general_approved")%string)
            = true).
  { intros s [->|[->| ->]]; cbn [String.eqb Ascii.eqb Bool.eqb negb andb];
      apply Bool.orb_true_r. }
  assert (Hkeep : negb (status r =? "pending")%string
                  && ((level =? "general")%string
                      || negb (status r =? "general_approved")%string) = true)
    by (rewrite Hpend, Hgen; reflexivity).
  destruct (role u =? "admin")%string.
  - injection Hl as <-. unfold apply_action.
    destruct (act =? "approve")%string; [apply Hterm; auto|].
    destruct (act =? "reject")%string; [apply Hterm; auto | exact Hkeep].
  - destruct (username u =? "general_approver")%string.
    + rewrite Hpend in Hl. discriminate.
    + destruct (first _ _); [|discriminate].
      destruct (status r =? "general_approved")%string eqn:Es; [|discriminate].
      injection Hl as <-. unfold apply_action.
      destruct (act =? "approve")%string; [apply Hterm; auto|].
      destruct (act =? "reject")%string; [apply Hterm; auto|].
      rewrite Es. exact Hkeep.
Qed.

(** One call that does not delete the request leaves it in the table with
    the stage still passed. *)
Lemma perform_keeps_passed (db : Db) (c : call) (rid : Z) (level : string) :
  keeps rid c = true ->
  (exists r, Store.get_request db rid = Some r /\ passed level (status r) = true) ->
  exists r', Store.get_request (perform db c) rid = Some r'
             /\ passed level (status r') = true.
Proof.
  intros Hk [r [Hr Hp]].
  assert (Hsame : forall db', requests db' = requests db ->
            exists r', Store.get_request db' rid = Some r'
                       /\ passed level (status r') = true).
  { intros db' E. exists r. unfold Store.get_request in *. rewrite E. split; assumption. }
  assert (Happ : forall db', (exists extra, requests db' = (requests db ++ extra)%list) ->
            exists r', Store.get_request db' rid = Some r'
                       /\ passed level (status r') = true).
  { intros db' [extra E]. exists r. unfold Store.get_request in *.
    rewrite E, first_app, Hr. split; [reflexivity | exact Hp]. }
  destruct c as [o|u0 rid0|u0 t m p steps|u0 t|u0 doc]; cbn [perform].
  - destruct o as [u0 m d p|u0 rid0 act com|u0 d a|u0 a|u0 doc act com]; cbn [step].
    + apply Happ, create_request_requests.
    + unfold approve_request.
      destruct (Store.get_request db rid0) as [r0|] eqn:Hr0; [|apply Hsame; reflexivity].
      destruct (approval_level_for db u0 r0) as [level0|] eqn:Hl0;
        [|apply Hsame; reflexivity].
      cbn [fst]. unfold Store.get_request in *.
      rewrite apply_flow_requests. cbn [requests update_request with_requests
                                        add_request_approval with_request_approvals].
      destruct (Z.eq_dec rid rid0) as [->|Hne].
      * rewrite first_update_first.
        -- rewrite Hr0. cbn [option_map]. eexists. split; [reflexivity|].
           rewrite Hr in Hr0. injection Hr0 as <-.
           apply (apply_action_keeps_passed db u0 level0 act level r Hl0 Hp).
        -- intros x Hx. rewrite apply_action_request_id. exact Hx.
      * rewrite first_update_other.
        -- exists r. split; assumption.
        -- intros x Hx. apply Z.eqb_eq in Hx. apply Z.eqb_neq. congruence.
        -- intros x Hx. rewrite apply_action_request_id.
           apply Z.eqb_eq in Hx. apply Z.eqb_neq. congruence.
    + apply Hsame, create_department_approver_requests.
    + apply Hsame, delete_department_approver_requests.
    + apply Hsame, approve_document_requests.
  - cbn [keeps] in Hk. apply Bool.negb_true_iff, Z.eqb_neq in Hk.
    destruct (delete_request_cases db u0 rid0) as [[E _]|[_ [_ E]]]; rewrite E.
    + exists r. split; assumption.
    + cbn [fst]. exists r. unfold Store.get_request in *.
      cbn [requests with_requests]. rewrite first_delete_other; [split; assumption|].
      intros x Hx. apply Z.eqb_eq in Hx. apply Z.eqb_neq. congruence.
  - apply Happ, create_workflow_request_requests.
  - apply Hsame, new_document_requests.
  - apply Hsame. unfold archive_document. destruct (negb _); [reflexivity|].
    destruct (get_document db doc); reflexivity.
Qed.

Lemma perform_all_keeps_passed (cs : list call) :
  forall (db : Db) (rid : Z) (level : string),
    forallb (keeps rid) cs = true ->
    (exists r, Store.get_request db rid = Some r /\ passed level (status r) = true) ->
    exists r', Store.get_request (perform_all db cs) rid = Some r'
               /\ passed level (status r') = true.
Proof.
  induction cs as [|c cs IH]; intros db rid level Hk H; [exact H|].
  cbn [forallb] in Hk. apply Bool.andb_true_iff in Hk. destruct Hk as [Hc Hcs].
  unfold perform_all. cbn [fold_left].
  apply (IH (perform db c) rid level Hcs).
  apply perform_keeps_passed; assumption.
Qed.

(** X4. No second turn: once a call by an actor whose role is not admin has
    been accepted with the action approve or reject, every further call of
    that actor on the same request is answered 403 and changes nothing,
    whatever calls of whatever users came in between (further approvals and
    rejections, an admin's override, new requests, changes of the approver
    mappings, deletions of other requests, the document handlers), as long
    as none of them is a delete_request of that request. *)
Theorem approve_request_no_second_turn :
  forall (db : Db) (u : User) (rid : Z) (act com : string) (r : Request)
         (cs : list call),
    Store.get_request db rid = Some r ->
    role u <> "admin" ->
    act = "approve" \/ act = "reject" ->
    (exists b, snd (approve_request db u rid act com) = ok b) ->
    forallb (keeps rid) cs = true ->
    forall act' com',
      approve_request (perform_all (fst (approve_request db u rid act com)) cs)
                      u rid act' com' =
      (perform_all (fst (approve_request db u rid act com)) cs,
       error 403 "You are not authorized to approve this request").
Proof.
  intros db u rid act com r cs Hr Hu Hact [b Hb] Hcs act' com'.
  destruct (approval_level_for db u r) as [level|] eqn:Hl.
  2:{ unfold approve_request in Hb. rewrite Hr, Hl in Hb. discriminate. }
  assert (Hfirst : exists r1,
            Store.get_request (fst (approve_request db u rid act com)) rid = Some r1
            /\ passed level (status r1) = true).
  { rewrite (approve_request_store db u rid act com r level Hr Hl).
    exists (apply_action u level act r). split.
    - unfold Store.get_request. rewrite apply_flow_requests. cbn.
      rewrite first_update_first.
      + unfold Store.get_request in Hr. rewrite Hr. reflexivity.
      + intros x Hx. rewrite apply_action_request_id. exact Hx.
    - destruct (level_of_non_admin db u r level Hu Hl) as [[_ [_ ->]]|[_ [_ ->]]];
        destruct Hact as [->| ->]; reflexivity. }
  destruct (perform_all_keeps_passed cs _ rid level Hcs Hfirst) as [r' [Hr' Hp]].
  assert (Hnone : approval_level_for
                    (perform_all (fst (approve_request db u rid act com)) cs) u r'
                  = None).
  { unfold approval_level_for. rewrite (not_admin_test u Hu).
    unfold passed in Hp. apply Bool.andb_true_iff in Hp. destruct Hp as [Hpend Hgen].
    apply Bool.negb_true_iff in Hpend.
    destruct (level_of_non_admin db u r level Hu Hl) as [[Hg [_ ->]]|[Hg [_ ->]]].
    - rewrite Hg. cbn [String.eqb Ascii.eqb Bool.eqb]. rewrite Hpend. reflexivity.
    - apply String.eqb_neq in Hg. rewrite Hg.
      cbn [String.eqb Ascii.eqb Bool.eqb orb] in Hgen.
      apply Bool.negb_true_iff in Hgen. rewrite Hgen.
      destruct (first _ _); reflexivity. }
  unfold approve_request at 1. rewrite Hr', Hnone. reflexivity.
Qed.

Lemma approve_request_no_second_turn_witness :
  approve_request
    (perform_all (fst (approve_request db_created general 1 "approve" "fine"))
       [Kept (OpApproveRequest it_approver 1 "approve" "ok");
        Kept (OpCreateRequest user1 (Py.text "Second request") "IT" "high");
        DeleteRequest admin 2;
        Kept (OpApproveRequest admin 1 "reject" "no budget")])
    general 1 "approve" "once more" =
  (perform_all (fst (approve_request db_created general 1 "approve" "fine"))
     [Kept (OpApproveRequest it_approver 1 "approve" "ok");
      Kept (OpCreateRequest user1 (Py.text "Second request") "IT" "high");
      DeleteRequest admin 2;
      Kept (OpApproveRequest admin 1 "reject" "no budget")],
   error 403 "You are not authorized to approve this request").
Proof.
  apply (approve_request_no_second_turn db_created general 1 "approve" "fine"
           (mkRequest 1 (Py.text "Request: Need a new laptop") laptop "IT"
                      "pending" "normal" 5 (Some 3) None)).
  - vm_compute. reflexivity.
  - vm_compute. discriminate.
  - left. reflexivity.
  - eexists. vm_compute. reflexivity.
  - reflexivity.
Defined.

(** ** Deactivating a department's approver *)

Lemma first_none_weaken {A : Type} (p q : A -> bool) (l : list A) :
  (forall x, p x = true -> q x = true) -> first q l = None -> first p l = None.
Proof.
  intros Hpq. unfold first. induction l as [|x l IH]; simpl; [reflexivity|].
  destruct (q x) eqn:Eq; [discriminate|]. intros H.
  destruct (p x) eqn:Ep; [rewrite (Hpq x Ep) in Eq; discriminate | exact (IH H)].
Qed.

(** Clearing the flag of a department's only active mapping leaves the
    department without an active approver. *)
Lemma deactivation_vacates (db : Db) (u : User) (i : Z) (a : DepartmentApprover) :
  role u = "admin" ->
  get_department_approver db i = Some a ->
  is_active a = true ->
  active_count db (da_department a) = 1 ->
  snd (delete_department_approver db u i) =
    ok (Done "Department approver deactivated successfully")
  /\ active_approver (fst (delete_department_approver db u i)) (da_department a) = None.
Proof.
  intros Hu Ha Hact Hone. unfold delete_department_approver. rewrite Hu, Ha.
  cbn [negb fst snd]. rewrite String.eqb_refl. cbn [negb fst snd].
  split; [reflexivity|].
  unfold active_approver. cbn [department_approvers with_department_approvers].
  apply first_none_count.
  unfold get_department_approver in Ha.
  rewrite (count_update_first_found _ _ _ _ a Ha).
  cbn [set_is_active da_department is_active]. rewrite Hact, String.eqb_refl.
  rewrite Bool.andb_false_r. cbn [andb].
  unfold active_count in Hone. lia.
Qed.

(** X8. Once the only active mapping of a department is deactivated, no
    request can be created for that department: every [create_request]
    naming it leaves the store as it is, and answers 404 when the message is
    not blank. *)
Theorem deactivation_stops_new_requests :
  forall (db : Db) (adm : User) (i : Z) (a : DepartmentApprover),
    role adm = "admin" ->
    get_department_approver db i = Some a ->
    is_active a = true ->
    active_count db (da_department a) = 1 ->
    forall (u : User) (m : Py.str) (p : string),
      fst (create_request (fst (delete_department_approver db adm i)) u m
                          (da_department a) p) =
      fst (delete_department_approver db adm i)
      /\ (Py.strip m <> [] -> da_department a <> EmptyString ->
          snd (create_request (fst (delete_department_approver db adm i)) u m
                              (da_department a) p) =
          error 404 ("No approver found for " ++ da_department a ++ " department")%string).
Proof.
  intros db adm i a Hadm Ha Hact Hone u m p.
  destruct (deactivation_vacates db adm i a Hadm Ha Hact Hone) as [_ Hnone].
  unfold create_request. rewrite Hnone. split.
  - destruct (Py.empty (Py.strip m) || Py.falsy (da_department a)); reflexivity.
  - intros Hm Hd. rewrite (empty_false _ Hm), (falsy_false _ Hd). reflexivity.
Qed.

Lemma deactivation_stops_new_requests_witness :
  fst (create_request (fst (delete_department_approver seed admin 1)) user1
                      laptop "IT" "normal") =
  fst (delete_department_approver seed admin 1)
  /\ snd (create_request (fst (delete_department_approver seed admin 1)) user1
                         laptop "IT" "normal") =
     error 404 "No approver found for IT department".
Proof.
  destruct (deactivation_stops_new_requests seed admin 1
              (mkDepartmentApprover 1 "IT" 3 true) eq_refl eq_refl eq_refl eq_refl
              user1 laptop "normal") as [H1 H2].
  split; [exact H1|]. apply H2; [vm_compute; discriminate | discriminate].
Defined.

(** X9. Once the only active mapping of a department is deactivated, a
    request of that department that waits at the department stage
    (general_approved) turns away every actor whose role is not admin, the
    former approver included: only an admin can still move it. *)
Theorem deactivation_locks_waiting_requests :
  forall (db : Db) (adm : User) (i : Z) (a : DepartmentApprover),
    role adm = "admin" ->
    get_department_approver db i = Some a ->
    is_active a = true ->
    active_count db (da_department a) = 1 ->
    forall (u : User) (rid : Z) (act com : string) (r : Request),
      Store.get_request db rid = Some r ->
      department r = da_department a ->
      status r = "general_approved" ->
      role u <> "admin" ->
      approve_request (fst (delete_department_approver db adm i)) u rid act com =
      (fst (delete_department_approver db adm i),
       error 403 "You are not authorized to approve this request").
Proof.
  intros db adm i a Hadm Ha Hact Hone u rid act com r Hr Hd Hs Hu.
  destruct (deactivation_vacates db adm i a Hadm Ha Hact Hone) as [_ Hnone].
  assert (Hr' : Store.get_request (fst (delete_department_approver db adm i)) rid = Some r).
  { unfold delete_department_approver. rewrite Hadm, Ha. exact Hr. }
  unfold approve_request. rewrite Hr'.
  assert (Hl : approval_level_for (fst (delete_department_approver db adm i)) u r = None).
  { unfold approval_level_for. rewrite (not_admin_test u Hu), Hs.
    destruct (username u =? "general_approver")%string; [reflexivity|].
    rewrite (first_none_weaken _ (fun x => (da_department x =? da_department a)%string
                                           && is_active x)).
    - reflexivity.
    - intros x Hx. rewrite Hd in Hx.
      apply Bool.andb_true_iff in Hx. destruct Hx as [Hx H3].
      apply Bool.andb_true_iff in Hx. destruct Hx as [_ H2].
      rewrite H2, H3. reflexivity.
    - exact Hnone. }
  rewrite Hl. reflexivity.
Qed.

Lemma deactivation_locks_waiting_requests_witness :
  approve_request (fst (delete_department_approver db_general admin 1)) it_approver 1
                  "approve" "ok" =
  (fst (delete_department_approver db_general admin 1),
   error 403 "You are not authorized to approve this request").
Proof.
  apply (deactivation_locks_waiting_requests db_general admin 1
           (mkDepartmentApprover 1 "IT" 3 true) eq_refl eq_refl eq_refl eq_refl
           it_approver 1 "approve" "ok" request1_general).
  - vm_compute. reflexivity.
  - reflexivity.
  - reflexivity.
  - vm_compute. discriminate.
Defined.

(** ** Documents: submitting, viewing, approving, archiving *)

(** X10. [new_document] files the document as pending and gives it one
    pending step for each of the first two approver-role users of the users
    table, in table order: step 1 for the first, with that user as
    approver, step 2 for the second; and step 3 for the first admin-role
    user, whether or not there were two approvers. That makes at most three
    steps, and none at all when there is neither an approver nor an admin.
    The steps that were there stay. *)
Theorem new_document_steps :
  forall (db : Db) (u : User) (t : string),
    snd (new_document db u t) = flash "Document submitted successfully!"
    /\ documents (fst (new_document db u t)) =
       (documents db ++
        [mkDocument (next_id document_id (documents db)) t "pending" (user_id u)])%list
    /\ exists rows,
         workflow_steps (fst (new_document db u t)) = (workflow_steps db ++ rows)%list
         /\ map (fun s => (step_order s, ws_approver_id s)) rows =
            (combine [1; 2]
                     (map user_id
                          (filter (fun x => (role x =? "approver")%string) (users db)))
             ++ match admin_approver db with
                | Some a => [(3, user_id a)]
                | None => []
                end)%list
         /\ List.length rows =
            (List.length (two_approvers db)
             + match admin_approver db with Some _ => 1 | None => 0 end)%nat
         /\ (List.length rows <= 3)%nat
         /\ Forall (fun s => ws_status s = "pending"
                             /\ ws_document_id s = next_id document_id (documents db)
                             /\ 1 <= step_order s <= 3) rows
         /\ (forall a, admin_approver db = Some a ->
             exists front,
               rows = (front ++
                       [mkWorkflowStep (next_id ws_id (workflow_steps db ++ front))
                          (next_id document_id (documents db)) 3 (user_id a)
                          "pending" EmptyString])%list).
Proof.
  intros db u t. unfold new_document. cbn [fst snd]. split; [reflexivity|].
  set (doc := next_id document_id (documents db)).
  set (db1 := with_documents db _).
  change (two_approvers db1) with (two_approvers db).
  change (admin_approver db1) with (admin_approver db).
  unfold two_approvers.
  destruct (filter (fun x => (role x =? "approver")%string) (users db))
    as [|a [|b rest]];
    cbn [firstn add_approver_steps map combine List.length];
    destruct (admin_approver db) as [adm|];
    (split; [reflexivity|]);
    cbn [workflow_steps add_workflow_step with_workflow_steps db1 with_documents];
    rewrite <- ?app_assoc; cbn [app];
    eexists; (split; [first [reflexivity | symmetry; apply app_nil_r]|]);
    (split; [reflexivity|]); (split; [reflexivity|]);
    (split; [cbn [List.length]; lia|]);
    (split; [repeat constructor; cbn; lia|]);
    intros x Hx; try discriminate; injection Hx as <-.
  - exists []. rewrite app_nil_r. reflexivity.
  - eexists [_]. reflexivity.
  - eexists [_; _]. reflexivity.
Qed.

Lemma new_document_steps_witness :
  exists rows,
    workflow_steps (fst (new_document seed user1 "Travel policy")) =
      (workflow_steps seed ++ rows)%list
    /\ map (fun s => (step_order s, ws_approver_id s)) rows =
       [(1, user_id general); (2, user_id it_approver); (3, user_id admin)].
Proof.
  destruct (new_document_steps seed user1 "Travel policy")
    as [_ [_ [rows [H1 [H2 _]]]]].
  exists rows. split; [exact H1 | exact H2].
Defined.

Lemma existsb_filter {A : Type} (f g : A -> bool) (l : list A) :
  existsb f (filter g l) = existsb (fun x => g x && f x) l.
Proof.
  induction l as [|x l IH]; simpl; [reflexivity|].
  destruct (g x); simpl; rewrite IH; reflexivity.
Qed.

Lemma existsb_first {A : Type} (f : A -> bool) (l : list A) :
  existsb f l = match first f l with Some _ => true | None => false end.
Proof.
  unfold first. induction l as [|x l IH]; simpl; [reflexivity|].
  destruct (f x); [reflexivity | exact IH].
Qed.

(** The button of [view_document] tests what [approve_document] looks up. *)
Lemma can_approve_spec (db : Db) (u : User) (doc : Z) :
  can_approve db u doc =
  ((role u =? "admin")%string || (role u =? "approver")%string)
  && match first (pending_step_of doc (user_id u)) (workflow_steps db) with
     | Some _ => true
     | None => false
     end.
Proof.
  unfold can_approve.
  destruct ((role u =? "admin")%string || (role u =? "approver")%string); [|reflexivity].
  rewrite existsb_filter, existsb_first. simpl.
  unfold first.
  assert (E : forall l, find (fun x => (ws_document_id x =? doc)
                                   && ((ws_approver_id x =? user_id u)
                                       && (ws_status x =? "pending")%string)) l =
                        find (pending_step_of doc (user_id u)) l).
  { induction l as [|x l IH]; simpl; [reflexivity|]. unfold pending_step_of at 1.
    rewrite <- Bool.andb_assoc.
    destruct ((ws_document_id x =? doc)
              && ((ws_approver_id x =? user_id u) && (ws_status x =? "pending")%string));
      [reflexivity | exact IH]. }
  rewrite E. reflexivity.
Qed.

(** X11. The approve button and the approve handler agree: when
    [view_document] computes can_approve = False every [approve_document]
    call of that user on that document is refused and changes nothing; when
    it computes True the call is not refused. *)
Theorem view_document_agrees_with_approve_document :
  forall (db : Db) (u : User) (doc : Z) (act com : string),
    (can_approve db u doc = false ->
     fst (approve_document db u doc act com) = db
     /\ (snd (approve_document db u doc act com) =
           flash "You do not have permission to approve documents"
         \/ snd (approve_document db u doc act com) =
           flash "You are not authorized to approve this document"))
    /\ (can_approve db u doc = true ->
        snd (approve_document db u doc act com) =
          flash ("Document " ++ act ++ "ed successfully!")%string
        \/ (Store.get_document db doc = None
            /\ approve_document db u doc act com = (db, unhandled AttributeError))).
Proof.
  intros db u doc act com. rewrite can_approve_spec. unfold approve_document.
  destruct ((role u =? "admin")%string || (role u =? "approver")%string);
    cbn [negb andb]; [|split; [intros _; split; [reflexivity | left; reflexivity]
                             | discriminate]].
  destruct (first (pending_step_of doc (user_id u)) (workflow_steps db));
    [|split; [intros _; split; [reflexivity | right; reflexivity] | discriminate]].
  split; [discriminate|]. intros _.
  destruct (_ =? 0); [|left; reflexivity].
  unfold get_document. cbn [documents with_workflow_steps with_approvals].
  destruct (first _ (documents db)); [left; reflexivity | right; split; reflexivity].
Qed.

Lemma view_document_agrees_with_approve_document_witness :
  fst (approve_document db_document user1 1 "approve" "fine") = db_document.
Proof.
  apply (proj1 (view_document_agrees_with_approve_document db_document user1 1
                  "approve" "fine")).
  vm_compute. reflexivity.
Defined.

(** What [approve_document] does once the actor's pending step is found. *)
Lemma approve_document_accepted (db : Db) (u : User) (doc : Z) (act com : string)
    (w : WorkflowStep) :
  role u = "admin" \/ role u = "approver" ->
  first (pending_step_of doc (user_id u)) (workflow_steps db) = Some w ->
  let db2 :=
    with_workflow_steps
      (with_approvals db
         (approvals db ++
          [mkApproval (next_id ap_id (approvals db)) doc (user_id u) act com]))
      (update_first (pending_step_of doc (user_id u)) (close_step act com)
                    (workflow_steps db)) in
  count_steps db2 doc "pending" =
    count_steps db doc "pending" - 1 + (if (act =? "pending")%string then 1 else 0)
  /\ count_steps db2 doc "rejected" =
     count_steps db doc "rejected" + (if (act =? "rejected")%string then 1 else 0)
  /\ approve_document db u doc act com =
     if count_steps db2 doc "pending" =? 0 then
       match Store.get_document db doc with
       | None => (db, unhandled AttributeError)
       | Some _ =>
           (with_documents db2
              (update_first (fun d => document_id d =? doc)
                 (set_doc_status (if 0 <? count_steps db2 doc "rejected"
                                  then "rejected" else "approved"))
                 (documents db)),
            flash ("Document " ++ act ++ "ed successfully!")%string)
       end
     else (db2, flash ("Document " ++ act ++ "ed successfully!")%string).
Proof.
  intros Hrole Hw db2.
  pose proof (first_some_in _ _ _ Hw) as [_ Hp].
  unfold pending_step_of in Hp.
  apply Bool.andb_true_iff in Hp. destruct Hp as [Hp Hst].
  apply Bool.andb_true_iff in Hp. destruct Hp as [Hdoc _].
  apply String.eqb_eq in Hst.
  split; [|split].
  - unfold db2, count_steps. cbn [workflow_steps with_workflow_steps with_approvals].
    rewrite (count_update_first_found _ _ _ _ w Hw).
    cbn [close_step ws_document_id ws_status]. rewrite Hdoc, Hst.
    change ("pending" =? "pending")%string with true. cbn [andb].
    destruct (act =? "pending")%string; lia.
  - unfold db2, count_steps. cbn [workflow_steps with_workflow_steps with_approvals].
    rewrite (count_update_first_found _ _ _ _ w Hw).
    cbn [close_step ws_document_id ws_status]. rewrite Hdoc, Hst.
    change ("pending" =? "rejected")%string with false. cbn [andb].
    destruct (act =? "rejected")%string; lia.
  - unfold approve_document.
    assert (Hr : negb ((role u =? "admin")%string || (role u =? "approver")%string) = false).
    { destruct Hrole as [E|E]; rewrite E; reflexivity. }
    rewrite Hr, Hw. reflexivity.
Qed.

(** X12. An accepted [approve_document] call with an action other than
    "pending" closes exactly one step of the document and logs exactly one
    Approval row; as long as another step of the document is still pending
    the document row is left as it was. *)
Theorem approve_document_closes_one_step :
  forall (db : Db) (u : User) (doc : Z) (act com : string) (w : WorkflowStep),
    role u = "admin" \/ role u = "approver" ->
    first (pending_step_of doc (user_id u)) (workflow_steps db) = Some w ->
    act <> "pending" ->
    count_steps db doc "pending" <> 1 ->
    snd (approve_document db u doc act com) =
      flash ("Document " ++ act ++ "ed successfully!")%string
    /\ count_steps (fst (approve_document db u doc act com)) doc "pending" =
       count_steps db doc "pending" - 1
    /\ approvals (fst (approve_document db u doc act com)) =
       (approvals db ++
        [mkApproval (next_id ap_id (approvals db)) doc (user_id u) act com])%list
    /\ documents (fst (approve_document db u doc act com)) = documents db
    /\ List.length (workflow_steps (fst (approve_document db u doc act com))) =
       List.length (workflow_steps db).
Proof.
  intros db u doc act com w Hrole Hw Hact Hmore.
  destruct (approve_document_accepted db u doc act com w Hrole Hw) as [Hp [_ He]].
  apply String.eqb_neq in Hact. rewrite Hact in Hp.
  rewrite He.
  destruct (_ =? 0) eqn:E0; [apply Z.eqb_eq in E0; lia|].
  cbn [fst snd]. split; [reflexivity|]. split; [lia|].
  split; [reflexivity|]. split; [reflexivity|].
  cbn. apply length_update_first_eq.
Qed.

Lemma approve_document_closes_one_step_witness :
  count_steps (fst (approve_document db_filed general 1 "approve" "fine")) 1 "pending" =
  count_steps db_filed 1 "pending" - 1.
Proof.
  destruct (approve_document_closes_one_step db_filed general 1 "approve" "fine"
              (mkWorkflowStep 1 1 1 2 "pending" EmptyString)) as [_ [H _]].
  - right. reflexivity.
  - vm_compute. reflexivity.
  - discriminate.
  - vm_compute. discriminate.
  - exact H.
Defined.

(** The rule by which the last step decides the document. *)
Lemma approve_document_last_step (db : Db) (u : User) (doc : Z) (act com : string)
    (w : WorkflowStep) (d : Document) :
  role u = "admin" \/ role u = "approver" ->
  first (pending_step_of doc (user_id u)) (workflow_steps db) = Some w ->
  act <> "pending" ->
  count_steps db doc "pending" = 1 ->
  Store.get_document db doc = Some d ->
  Store.get_document (fst (approve_document db u doc act com)) doc =
  Some (set_doc_status
          (if (act =? "rejected")%string || (0 <? count_steps db doc "rejected")
           then "rejected" else "approved") d).
Proof.
  intros Hrole Hw Hact Hone Hd.
  destruct (approve_document_accepted db u doc act com w Hrole Hw) as [Hp [Hr He]].
  apply String.eqb_neq in Hact. rewrite Hact in Hp.
  match type of Hp with
  | ?c = _ => assert (Hz : (c =? 0) = true) by (apply Z.eqb_eq; lia)
  end.
  rewrite He, Hz, Hd.
  cbn [fst]. unfold Store.get_document. cbn [documents with_documents].
  rewrite first_update_first; [|intros x Hx; exact Hx].
  unfold Store.get_document in Hd. rewrite Hd. cbn [option_map]. rewrite Hr.
  f_equal. f_equal.
  pose proof (count_nonneg (fun x => (ws_document_id x =? doc)
                                     && (ws_status x =? "rejected")%string)
                           (workflow_steps db)) as Hnn.
  unfold count_steps in *.
  destruct (act =? "rejected")%string; cbn [orb].
  - assert (E : (0 <? count (fun x => (ws_document_id x =? doc)
                                      && (ws_status x =? "rejected")%string)
                            (workflow_steps db) + 1) = true) by (apply Z.ltb_lt; lia).
    rewrite E. reflexivity.
  - rewrite Z.add_0_r. reflexivity.
Qed.

(** X13. How the last step decides: when an accepted call closes the only
    pending step of a document, the document becomes "rejected" if the
    posted action is the literal "rejected" or some step already carries
    the status "rejected", and "approved" for every other action, be it
    approve, reject or comment. *)
Theorem approve_document_decision_rule :
  forall (db : Db) (u : User) (doc : Z) (act com : string)
         (w : WorkflowStep) (d : Document),
    role u = "admin" \/ role u = "approver" ->
    first (pending_step_of doc (user_id u)) (workflow_steps db) = Some w ->
    act <> "pending" ->
    count_steps db doc "pending" = 1 ->
    Store.get_document db doc = Some d ->
    exists d',
      Store.get_document (fst (approve_document db u doc act com)) doc = Some d'
      /\ document_id d' = document_id d
      /\ (act = "rejected" \/ 0 < count_steps db doc "rejected" ->
          doc_status d' = "rejected")
      /\ (act <> "rejected" -> count_steps db doc "rejected" = 0 ->
          doc_status d' = "approved").
Proof.
  intros db u doc act com w d Hrole Hw Hact Hone Hd.
  eexists. split; [apply (approve_document_last_step db u doc act com w d); assumption|].
  split; [reflexivity|]. cbn [doc_status set_doc_status]. split.
  - intros [->|Hpos]; [reflexivity|].
    apply Z.ltb_lt in Hpos. rewrite Hpos, Bool.orb_true_r. reflexivity.
  - intros Hne Hz. apply String.eqb_neq in Hne. rewrite Hne, Hz. reflexivity.
Qed.

Lemma approve_document_decision_rule_witness :
  exists d',
    Store.get_document (fst (approve_document db_document it_approver 1 "comment" "seen"))
                       1 = Some d'
    /\ doc_status d' = "approved".
Proof.
  destruct (approve_document_decision_rule db_document it_approver 1 "comment" "seen"
              (mkWorkflowStep 1 1 1 3 "pending" EmptyString)
              (mkDocument 1 "Travel policy" "pending" 5))
    as [d' [H1 [_ [_ H2]]]].
  - right. reflexivity.
  - vm_compute. reflexivity.
  - discriminate.
  - vm_compute. reflexivity.
  - vm_compute. reflexivity.
  - exists d'. split; [exact H1|]. apply H2; [discriminate | vm_compute; reflexivity].
Defined.

(** X14. Archiving is not final: an admin's [archive_document] marks an
    existing document "archived" whatever its status was, but a later
    [approve_document] call that closes the document's last pending step
    overwrites that status with "approved" or "rejected". *)
Theorem archived_document_can_still_be_decided :
  forall (db : Db) (adm u : User) (doc : Z) (act com : string)
         (w : WorkflowStep) (d : Document),
    role adm = "admin" ->
    Store.get_document db doc = Some d ->
    role u = "admin" \/ role u = "approver" ->
    first (pending_step_of doc (user_id u)) (workflow_steps db) = Some w ->
    act <> "pending" ->
    count_steps db doc "pending" = 1 ->
    snd (archive_document db adm doc) = flash "Document archived successfully!"
    /\ option_map doc_status (Store.get_document (fst (archive_document db adm doc)) doc)
       = Some "archived"
    /\ exists s,
         option_map doc_status
           (Store.get_document
              (fst (approve_document (fst (archive_document db adm doc)) u doc act com))
              doc) = Some s
         /\ (s = "approved" \/ s = "rejected").
Proof.
  intros db adm u doc act com w d Hadm Hd Hrole Hw Hact Hone.
  unfold archive_document. rewrite Hadm, Hd.
  change (negb ("admin" =? "admin")%string) with false. cbv iota. cbn [fst snd].
  set (db1 := with_documents db _).
  assert (Hd1 : Store.get_document db1 doc = Some (set_doc_status "archived" d)).
  { unfold db1, Store.get_document. cbn [documents with_documents].
    rewrite first_update_first; [|intros x Hx; exact Hx].
    unfold Store.get_document in Hd. rewrite Hd. reflexivity. }
  split; [reflexivity|]. split; [rewrite Hd1; reflexivity|].
  rewrite (approve_document_last_step db1 u doc act com w
             (set_doc_status "archived" d) Hrole Hw Hact Hone Hd1).
  eexists. split; [reflexivity|]. cbn [doc_status set_doc_status].
  destruct (_ || _); auto.
Qed.

Lemma archived_document_can_still_be_decided_witness :
  option_map doc_status
    (Store.get_document (fst (archive_document db_document admin 1)) 1) = Some "archived".
Proof.
  refine (proj1 (proj2 (archived_document_can_still_be_decided db_document admin
                          it_approver 1 "approve" "fine"
                          (mkWorkflowStep 1 1 1 3 "pending" EmptyString)
                          (mkDocument 1 "Travel policy" "pending" 5) _ _ _ _ _ _))).
  - reflexivity.
  - vm_compute. reflexivity.
  - right. reflexivity.
  - vm_compute. reflexivity.
  - discriminate.
  - vm_compute. reflexivity.
Defined.

(** ** Custom workflows *)

Lemma find_none_forall {A : Type} (p : A -> bool) (l : list A) :
  Forall (fun x => p x = false) l -> find p l = None.
Proof.
  induction 1 as [|x l Hx _ IH]; simpl; [reflexivity|]. rewrite Hx. exact IH.
Qed.

(** X15. A step list that names no department (only "General Approver"
    and "Admin" steps) is refused with 400 "No department specified in
    workflow steps"; and whenever [create_workflow_request] answers with an
    error code (400 or 404) it has created nothing. *)
Theorem create_workflow_request_needs_a_department :
  forall (db : Db) (u : User) (t m : Py.str) (p : string) (steps : list StepData),
    (Py.strip t <> [] -> Py.strip m <> [] -> steps <> [] ->
     Forall (fun s => is_generic (sd_department s) = true) steps ->
     create_workflow_request db u t m p steps =
     (db, inr (error 400 "No department specified in workflow steps")))
    /\ (forall code msg,
          snd (create_workflow_request db u t m p steps) = inr (error code msg) ->
          fst (create_workflow_request db u t m p steps) = db).
Proof.
  intros db u t m p steps. split.
  - intros Ht Hm Hne Hall. unfold create_workflow_request.
    rewrite (empty_false _ Ht), (empty_false _ Hm). cbn [orb].
    destruct steps as [|s0 steps0]; [congruence|].
    unfold actual_department_of. rewrite find_none_forall; [reflexivity|].
    eapply Forall_impl; [|exact Hall]. intros s Hs. cbn. rewrite Hs. reflexivity.
  - intros code msg. unfold create_workflow_request.
    destruct (Py.empty (Py.strip t) || Py.empty (Py.strip m)); [reflexivity|].
    destruct steps as [|s0 steps0]; [reflexivity|].
    destruct (actual_department_of (s0 :: steps0)) as [d|]; [|reflexivity].
    destruct (Py.falsy d); [reflexivity|].
    destruct (active_approver db d) as [da|]; [|reflexivity].
    cbv zeta. destruct (get_user _ _); cbn [snd]; discriminate.
Qed.

Lemma create_workflow_request_needs_a_department_witness :
  create_workflow_request seed user1 (Py.text "Badge") (Py.text "Please renew my badge")
                          "normal" steps_generic =
  (seed, inr (error 400 "No department specified in workflow steps")).
Proof.
  apply (proj1 (create_workflow_request_needs_a_department seed user1 (Py.text "Badge")
                  (Py.text "Please renew my badge") "normal" steps_generic)).
  - vm_compute. discriminate.
  - vm_compute. discriminate.
  - discriminate.
  - repeat constructor.
Defined.

(** The approver key, level and action of an approval row. *)
Lemma add_step_approvals_rows (steps : list StepData) :
  forall (db : Db) (rid : Z),
    exists rows,
      request_approvals (add_step_approvals db rid steps) =
      (request_approvals db ++ rows)%list
      /\ map (fun r => (ra_approver_id r, level_action r)) rows =
         flat_map (fun s => match step_approval db s with
                            | Some (a, l) => [(a, (l, "pending"))]
                            | None => []
                            end) steps
      /\ Forall (fun r => ra_request_id r = rid) rows.
Proof.
  induction steps as [|s steps IH]; intros db rid.
  - exists []. cbn. rewrite app_nil_r. repeat split. constructor.
  - cbn [add_step_approvals flat_map].
    destruct (step_approval db s) as [[a l]|] eqn:Hs.
    + match goal with
      | |- context [add_step_approvals ?d rid steps] =>
          destruct (IH d rid) as [rows [Hrows [Hmap Hall]]]
      end.
      eexists. rewrite Hrows.
      cbn [request_approvals add_request_approval with_request_approvals].
      rewrite <- app_assoc. split; [reflexivity|]. split.
      * cbn [map app]. rewrite Hmap. reflexivity.
      * constructor; [reflexivity | exact Hall].
    + destruct (IH db rid) as [rows [Hrows [Hmap Hall]]].
      exists rows. repeat split; assumption.
Qed.

Lemma flat_map_length_le {A B : Type} (f : A -> list B) (l : list A) :
  (forall x, (List.length (f x) <= 1)%nat) ->
  (List.length (flat_map f l) <= List.length l)%nat.
Proof.
  intros Hf. induction l as [|x l IH]; simpl; [lia|].
  rewrite length_app. specialize (Hf x). lia.
Qed.

(** What an accepted [create_workflow_request] stores. *)
Lemma create_workflow_request_stores (db : Db) (u : User) (t m : Py.str) (p : string)
    (steps : list StepData) (d : string) (da : DepartmentApprover) :
  Py.strip t <> [] -> Py.strip m <> [] ->
  actual_department_of steps = Some d -> d <> EmptyString ->
  active_approver db d = Some da ->
  requests (fst (create_workflow_request db u t m p steps)) =
    (requests db ++
     [mkRequest (next_id request_id (requests db)) (Py.strip t) (Py.strip m) d
                "pending" p (user_id u) (Some (da_approver_id da)) None])%list
  /\ request_approvals (fst (create_workflow_request db u t m p steps)) =
     request_approvals
       (add_step_approvals
          (with_requests db
             (requests db ++
              [mkRequest (next_id request_id (requests db)) (Py.strip t) (Py.strip m) d
                         "pending" p (user_id u) (Some (da_approver_id da)) None]))
          (next_id request_id (requests db)) steps)
  /\ (forall code msg,
        snd (create_workflow_request db u t m p steps) <> inr (error code msg)).
Proof.
  intros Ht Hm Hd Hne Ha. unfold create_workflow_request.
  rewrite (empty_false _ Ht), (empty_false _ Hm). cbn [orb].
  destruct steps as [|s0 steps0]; [discriminate|].
  rewrite Hd, (falsy_false _ Hne), Ha. cbv zeta.
  set (rid := next_id request_id (requests db)).
  set (db1 := with_requests db _).
  destruct (add_step_flows_frame (s0 :: steps0)
              (add_flow (add_step_approvals db1 rid (s0 :: steps0)) rid 0
                 "User (Submitter)" (user_id u) (username u) "user"
                 (user_department u) "completed") rid)
    as [_ [_ [F3 [F4 _]]]].
  destruct (add_step_approvals_frame (s0 :: steps0) db1 rid) as [_ [_ [G3 _]]].
  destruct (get_user _ _); cbn [fst snd]; rewrite F3, F4;
    cbn [requests request_approvals add_flow with_workflow_flow_display];
    rewrite G3; (split; [reflexivity|]); (split; [reflexivity|]); discriminate.
Qed.

(** X16. An accepted [create_workflow_request] stores the request under
    the first department step's department, pending, and appends one
    pending RequestApproval row per step whose approver resolves, in step
    order, all for the new request; a step whose approver does not resolve
    is skipped without an error, so there are at most as many rows as
    steps. *)
Theorem create_workflow_request_skips_unresolved_steps :
  forall (db : Db) (u : User) (t m : Py.str) (p : string) (steps : list StepData)
         (d : string) (da : DepartmentApprover),
    Py.strip t <> [] -> Py.strip m <> [] ->
    actual_department_of steps = Some d -> d <> EmptyString ->
    active_approver db d = Some da ->
    (forall code msg,
        snd (create_workflow_request db u t m p steps) <> inr (error code msg))
    /\ (exists r,
          Store.get_request (fst (create_workflow_request db u t m p steps))
                            (next_id request_id (requests db)) = Some r
          /\ department r = d /\ status r = "pending"
          /\ department_approver_id r = Some (da_approver_id da))
    /\ exists rows,
         request_approvals (fst (create_workflow_request db u t m p steps)) =
         (request_approvals db ++ rows)%list
         /\ map (fun r => (ra_approver_id r, level_action r)) rows =
            flat_map (fun s => match step_approval db s with
                               | Some (a, l) => [(a, (l, "pending"))]
                               | None => []
                               end) steps
         /\ Forall (fun r => ra_request_id r = next_id request_id (requests db)) rows
         /\ (List.length rows <= List.length steps)%nat.
Proof.
  intros db u t m p steps d da Ht Hm Hd Hne Ha.
  destruct (create_workflow_request_stores db u t m p steps d da Ht Hm Hd Hne Ha)
    as [Hreq [Happ Hok]].
  split; [exact Hok|]. split.
  - unfold Store.get_request. rewrite Hreq, first_app.
    rewrite (next_id_unused request_id (requests db)).
    unfold first. cbn [find request_id]. rewrite Z.eqb_refl.
    eexists. split; [reflexivity|]. repeat split.
  - rewrite Happ.
    match goal with
    | |- context [add_step_approvals ?d1 ?rid steps] =>
        destruct (add_step_approvals_rows steps d1 rid) as [rows [Hrows [Hmap Hall]]]
    end.
    exists rows. split; [exact Hrows|]. split; [exact Hmap|]. split; [exact Hall|].
    rewrite <- (length_map (fun r => (ra_approver_id r, level_action r)) rows), Hmap.
    apply flat_map_length_le. intros s.
    match goal with |- context [match ?x with _ => _ end] => destruct x as [[a l]|] end;
      simpl; lia.
Qed.

Lemma create_workflow_request_skips_unresolved_steps_witness :
  exists rows,
    request_approvals
      (fst (create_workflow_request seed user1 (Py.text "Laptop") laptop "normal"
              steps_it)) = (request_approvals seed ++ rows)%list
    /\ (List.length rows <= List.length steps_it)%nat.
Proof.
  destruct (create_workflow_request_skips_unresolved_steps seed user1 (Py.text "Laptop")
              laptop "normal" steps_it "IT"
              (mkDepartmentApprover 1 "IT" 3 true))
    as [_ [_ [rows [H1 [_ [_ H2]]]]]].
  - vm_compute. discriminate.
  - vm_compute. discriminate.
  - vm_compute. reflexivity.
  - discriminate.
  - vm_compute. reflexivity.
  - exists rows. split; assumption.
Defined.

(** X17. For a department step the approval row [create_workflow_request]
    appends carries, as approver_id, the key of the DepartmentApprover
    mapping row, not the id of the approving user. *)
Theorem create_workflow_request_records_mapping_key :
  forall (db : Db) (u : User) (t m : Py.str) (p : string) (d : string) (n : Z)
         (da : DepartmentApprover),
    Py.strip t <> [] -> Py.strip m <> [] ->
    d <> EmptyString -> is_generic d = false ->
    active_approver db d = Some da ->
    request_approvals
      (fst (create_workflow_request db u t m p [mkStepData d n])) =
    (request_approvals db ++
     [mkRequestApproval (next_id ra_id (request_approvals db))
        (next_id request_id (requests db)) (da_id da) "department" "pending"
        ("Request submitted and routed to " ++ d ++ " (Step " ++ str_of_Z n ++ ")")%string])%list.
Proof.
  intros db u t m p d n da Ht Hm Hne Hgen Ha.
  assert (Hd : actual_department_of [mkStepData d n] = Some d).
  { unfold actual_department_of. cbn. rewrite Hgen. reflexivity. }
  destruct (create_workflow_request_stores db u t m p [mkStepData d n] d da
              Ht Hm Hd Hne Ha) as [_ [Happ _]].
  rewrite Happ. cbn [add_step_approvals]. unfold step_approval.
  cbn [sd_department stepNumber].
  unfold is_generic in Hgen. apply Bool.orb_false_iff in Hgen. destruct Hgen as [G1 G2].
  rewrite G1, G2.
  change (active_approver (with_requests db ?x) d) with (active_approver db d).
  rewrite Ha. reflexivity.
Qed.

Lemma create_workflow_request_records_mapping_key_witness :
  map ra_approver_id
      (request_approvals
         (fst (create_workflow_request seed_row7 user1 (Py.text "Laptop") laptop
                 "normal" [mkStepData "IT" 1]))) = [7].
Proof.
  rewrite (create_workflow_request_records_mapping_key seed_row7 user1 (Py.text "Laptop")
             laptop "normal" "IT" 1 (mkDepartmentApprover 7 "IT" 3 true)).
  - reflexivity.
  - vm_compute. discriminate.
  - vm_compute. discriminate.
  - discriminate.
  - reflexivity.
  - vm_compute. reflexivity.
Defined.

(** ** Reading requests *)

(** X18. Whoever may act on a request may read it: every actor to whom
    [approve_request] would hand a level passes the permission check of
    [get_request] for that request. *)
Theorem get_request_admits_every_approver :
  forall (db : Db) (u : User) (rid : Z) (r : Request) (level : string),
    Store.get_request db rid = Some r ->
    approval_level_for db u r = Some level ->
    get_request_check db u rid = inr r.
Proof.
  intros db u rid r level Hr Hl. unfold get_request_check. rewrite Hr.
  unfold approval_level_for in Hl.
  destruct (role u =? "admin")%string; [reflexivity|]. cbn [negb andb].
  destruct (negb (submitter_id r =? user_id u)); [|reflexivity].
  destruct (username u =? "general_approver")%string; [reflexivity|].
  destruct (first _ (department_approvers db)); [reflexivity | discriminate].
Qed.

Lemma get_request_admits_every_approver_witness :
  get_request_check db_general it_approver 1 = inr request1_general.
Proof.
  apply (get_request_admits_every_approver db_general it_approver 1 request1_general
           "department").
  - vm_compute. reflexivity.
  - vm_compute. reflexivity.
Defined.




(** X20. List and detail disagree for an approver-role user without a
    mapping: such a user (other than the general approver) is shown an
    empty list by [get_requests], even though the permission check of
    [get_request] admits them to every request they submitted. *)
Theorem unmapped_approver_sees_no_list :
  forall (db : Db) (u : User),
    role u = "approver" ->
    username u <> "general_approver" ->
    first (fun a => (da_approver_id a =? user_id u) && is_active a)
          (department_approvers db) = None ->
    get_requests_rows db u = []
    /\ forall rid r,
         Store.get_request db rid = Some r ->
         submitter_id r = user_id u ->
         get_request_check db u rid = inr r.
Proof.
  intros db u Hrole Hname Hnone. split.
  - unfold get_requests_rows. rewrite Hrole.
    change ("approver" =? "admin")%string with false.
    change ("approver" =? "approver")%string with true. cbv iota.
    apply String.eqb_neq in Hname. rewrite Hname, Hnone. reflexivity.
  - intros rid r Hr Hsub. unfold get_request_check. rewrite Hr, Hsub, Z.eqb_refl.
    cbn [negb]. rewrite Bool.andb_false_r. reflexivity.
Qed.

Lemma unmapped_approver_sees_no_list_witness :
  get_requests_rows
    (fst (create_request seed hr_approver laptop "IT" "normal")) hr_approver
  = [].
Proof.
  apply (unmapped_approver_sees_no_list
           (fst (create_request seed hr_approver laptop "IT" "normal"))
           hr_approver).
  - reflexivity.
  - vm_compute. discriminate.
  - vm_compute. reflexivity.
Defined.

(** ** Analytics: the department distribution *)

Lemma counter_incr_keys (k k' : string) (c : list (string * Z)) :
  In k' (map fst (counter_incr k c)) <-> k' = k \/ In k' (map fst c).
Proof.
  induction c as [|[k0 n0] c IH]; cbn [counter_incr map fst In].
  - intuition congruence.
  - destruct (k =? k0)%string eqn:E; cbn [map fst In].
    + apply String.eqb_eq in E. subst k0. intuition congruence.
    + rewrite IH. intuition congruence.
Qed.

Lemma counter_incr_nodup (k : string) (c : list (string * Z)) :
  NoDup (map fst c) -> NoDup (map fst (counter_incr k c)).
Proof.
  induction c as [|[k0 n0] c IH]; cbn [counter_incr map fst]; intros Hnd.
  - constructor; [intros [] | constructor].
  - inversion Hnd as [|x l Hnot Hrest]; subst.
    destruct (k =? k0)%string eqn:E; cbn [map fst].
    + constructor; assumption.
    + constructor; [|apply IH; exact Hrest].
      rewrite counter_incr_keys. intros [->|H]; [|contradiction].
      rewrite String.eqb_refl in E. discriminate.
Qed.

Lemma counter_incr_sum (k : string) (c : list (string * Z)) :
  fold_right Z.add 0 (map snd (counter_incr k c)) = fold_right Z.add 0 (map snd c) + 1.
Proof.
  induction c as [|[k0 n0] c IH]; cbn [counter_incr map snd fold_right]; [lia|].
  destruct (k =? k0)%string; cbn [map snd fold_right]; lia.
Qed.

(** Where an entry of an incremented counter comes from. *)
Lemma counter_incr_entry (k d : string) (n : Z) (c : list (string * Z)) :
  NoDup (map fst c) ->
  In (d, n) (counter_incr k c) ->
  (d <> k /\ In (d, n) c)
  \/ (d = k /\ (In (k, n - 1) c \/ (n = 1 /\ ~ In k (map fst c)))).
Proof.
  induction c as [|[k0 n0] c IH]; cbn [counter_incr In map fst]; intros Hnd.
  - intros [[= <- <-]|[]]. right. split; [reflexivity|]. right. tauto.
  - inversion Hnd as [|x l Hnot Hrest]; subst.
    destruct (k =? k0)%string eqn:E.
    + apply String.eqb_eq in E. subst k0. cbn [In].
      intros [[= <- <-]|H].
      * right. split; [reflexivity|]. left. left. f_equal. lia.
      * left. split; [|right; exact H].
        intros ->. apply Hnot. apply (in_map fst) in H. exact H.
    + apply String.eqb_neq in E. cbn [In]. intros [[= <- <-]|H].
      * left. split; [congruence | left; reflexivity].
      * destruct (IH Hrest H) as [[Hne Hin]|[-> [Hin|[Hn Hnotk]]]].
        -- left. split; [exact Hne | right; exact Hin].
        -- right. split; [reflexivity|]. left. right. exact Hin.
        -- right. split; [reflexivity|]. right. split; [exact Hn|].
           intros [Hk|Hk]; [congruence | contradiction].
Qed.

Lemma combine_fst_snd {A B : Type} (c : list (A * B)) :
  combine (map fst c) (map snd c) = c.
Proof.
  induction c as [|[a b] c IH]; cbn; [reflexivity | rewrite IH; reflexivity].
Qed.

(** The invariant of the counting loop: [c] is the counter after the
    requests [seen]. *)
Lemma dept_counts_invariant (rest : list Request) :
  forall (seen : list Request) (c : list (string * Z)),
    NoDup (map fst c) ->
    ~ In EmptyString (map fst c) ->
    (forall d n, In (d, n) c ->
                 n = count (fun r => (department r =? d)%string) seen /\ 0 < n) ->
    (forall r, In r seen -> department r <> EmptyString ->
               In (department r) (map fst c)) ->
    fold_right Z.add 0 (map snd c) =
      count (fun r => negb (Py.falsy (department r))) seen ->
    let c' := fold_left (fun c req => if Py.falsy (department req) then c
                                      else counter_incr (department req) c) rest c in
    NoDup (map fst c')
    /\ ~ In EmptyString (map fst c')
    /\ (forall d n, In (d, n) c' ->
                    n = count (fun r => (department r =? d)%string) (seen ++ rest)
                    /\ 0 < n)
    /\ (forall r, In r (seen ++ rest) -> department r <> EmptyString ->
                  In (department r) (map fst c'))
    /\ fold_right Z.add 0 (map snd c') =
       count (fun r => negb (Py.falsy (department r))) (seen ++ rest).
Proof.
  induction rest as [|x rest IH]; intros seen c Hnd Hne Hcnt Hall Hsum.
  - cbn [fold_left]. rewrite app_nil_r.
    split; [assumption|]. split; [assumption|]. split; [assumption|].
    split; assumption.
  - cbn [fold_left].
    replace (seen ++ x :: rest)%list with ((seen ++ [x]) ++ rest)%list
      by (rewrite <- app_assoc; reflexivity).
    apply IH.
    + destruct (Py.falsy (department x)); [exact Hnd | apply counter_incr_nodup; exact Hnd].
    + destruct (Py.falsy (department x)) eqn:Ef; [exact Hne|].
      rewrite counter_incr_keys. intros [E|H]; [|contradiction].
      rewrite <- E in Ef. discriminate.
    + intros d n Hin. rewrite count_app. unfold count at 2. cbn [filter].
      destruct (Py.falsy (department x)) eqn:Ef.
      * destruct (Hcnt d n Hin) as [Hn Hpos].
        assert (Hd : (department x =? d)%string = false).
        { apply String.eqb_neq. intros E. apply Hne.
          assert (Hx : department x = EmptyString)
            by (destruct (department x); [reflexivity | discriminate]).
          rewrite <- Hx, E. apply (in_map fst) in Hin. exact Hin. }
        rewrite Hd. cbn [List.length Z.of_nat]. split; lia.
      * destruct (counter_incr_entry (department x) d n c Hnd Hin)
          as [[Hd Hc]|[-> [Hc|[Hn Hnot]]]].
        -- destruct (Hcnt d n Hc) as [Hn Hpos].
           assert (E : (department x =? d)%string = false)
             by (apply String.eqb_neq; congruence).
           rewrite E. cbn [List.length Z.of_nat]. split; lia.
        -- destruct (Hcnt _ _ Hc) as [Hn Hpos].
           rewrite String.eqb_refl. cbn [List.length Z.of_nat]. split; lia.
        -- rewrite String.eqb_refl. cbn [List.length Z.of_nat].
           assert (Hz : count (fun r => (department r =? department x)%string) seen = 0).
           { apply first_none_count. unfold first.
             destruct (find _ seen) as [r|] eqn:Hf; [|reflexivity].
             apply find_some in Hf. destruct Hf as [Hr Hd].
             apply String.eqb_eq in Hd. exfalso. apply Hnot. rewrite <- Hd.
             apply Hall; [exact Hr|]. rewrite Hd. intros E. rewrite E in Ef. discriminate. }
           rewrite Hz. split; lia.
    + intros r Hin Hr. apply in_app_or in Hin.
      destruct (Py.falsy (department x)) eqn:Ef.
      * destruct Hin as [Hin|[<-|[]]]; [apply Hall; assumption|].
        destruct (department x); [congruence | discriminate].
      * rewrite counter_incr_keys.
        destruct Hin as [Hin|[<-|[]]]; [right; apply Hall; assumption | left; reflexivity].
    + rewrite count_app. unfold count at 2. cbn [filter].
      destruct (Py.falsy (department x)); cbn [negb List.length Z.of_nat];
        [|rewrite counter_incr_sum]; lia.
Qed.

(** X21. [calculate_department_distribution] counts right: its labels are
    the distinct non-empty departments of the requests, each listed once;
    the value beside a label is the number of requests of that department,
    at least 1; and the values add up to the number of requests that have a
    department. *)
Theorem department_distribution_counts :
  forall (reqs : list Request),
    NoDup (fst (calculate_department_distribution reqs))
    /\ List.length (fst (calculate_department_distribution reqs)) =
       List.length (snd (calculate_department_distribution reqs))
    /\ ~ In EmptyString (fst (calculate_department_distribution reqs))
    /\ (forall r, In r reqs -> department r <> EmptyString ->
                  In (department r) (fst (calculate_department_distribution reqs)))
    /\ (forall d n,
          In (d, n) (combine (fst (calculate_department_distribution reqs))
                             (snd (calculate_department_distribution reqs))) ->
          n = count (fun r => (department r =? d)%string) reqs /\ 1 <= n)
    /\ fold_right Z.add 0 (snd (calculate_department_distribution reqs)) =
       count (fun r => negb (Py.falsy (department r))) reqs.
Proof.
  intros reqs. unfold calculate_department_distribution. cbn [fst snd].
  rewrite combine_fst_snd, !length_map.
  destruct (dept_counts_invariant reqs [] []) as [H1 [H2 [H3 [H4 H5]]]].
  - constructor.
  - intros [].
  - intros d n [].
  - intros r [].
  - reflexivity.
  - cbn [app] in *. fold (dept_counts reqs) in *.
    split; [exact H1|]. split; [reflexivity|]. split; [exact H2|].
    split; [exact H4|]. split; [|exact H5].
    intros d n Hin. destruct (H3 d n Hin) as [Hn Hp]. split; [exact Hn | lia].
Qed.

Lemma department_distribution_counts_witness :
  In (department request1_general)
     (fst (calculate_department_distribution (requests db_general))).
Proof.
  destruct (department_distribution_counts (requests db_general)) as [_ [_ [_ [H _]]]].
  apply H.
  - vm_compute. left. reflexivity.
  - discriminate.
Defined.

(** ** The three-stage path, end to end *)



